(** * leavewell-flow: the authentication fallback layer

    A shallow embedding of [src/lib/mockAuth.ts] (class [MockAuthService])
    and of the profile resolution of [src/contexts/AuthContext.tsx]
    (component [AuthProvider]), with the properties the specification
    states about them. Further on: the operations [AuthProvider] hands
    out, the navigation of [AppSidebar] and the data fetch of
    [Dashboard], with properties read off the code.

    Conventions of the embedding.
    - [localStorage] is used by the service through two fixed keys only.
      What is stored under a key is the [JSON.stringify] text of a record
      whose fields are strings and integral numbers, and [JSON.parse] gives
      that record back, so a slot holds the record itself; [None] is the
      [null] that [getItem] returns for a missing key.
    - JavaScript numbers that occur are millisecond timestamps and the
      constant 86400000; they are integers far below 2^53, where double
      arithmetic is exact, and are modelled in [Z].
    - [Date.now()], [Math.random()] and [new Date()] are inputs of the
      program: the world carries, for each, the sequence of values the
      successive calls return.
    - [console.log] output is not part of the model.
    - A call to the primary provider is an input where the code reads
      what comes back (how the awaited call ends), and an output where it
      does not. *)

From Stdlib Require Import ZArith String List Bool Lia.
From stdpp Require Import base option list strings gmap pretty.

Open Scope string_scope.
Open Scope Z_scope.

(** ** JavaScript values that the code tests for truthiness *)

Module Js.

(** A string is falsy exactly when it is empty. *)
Definition truthy (s : string) : bool := negb (String.eqb s "").

(** [v || d] for an operand that is [undefined] or a string. *)
Definition or_else (v : option string) (d : string) : string :=
  match v with
  | Some s => if truthy s then s else d
  | None => d
  end.

(** The property names every object literal inherits from
    [Object.prototype] (ECMAScript, with the legacy accessors of Annex B).
    Each of them reads as a function, or for [__proto__] as the prototype
    object itself: a truthy value in every case. *)
Definition Object_prototype : list string :=
  [ "constructor"; "hasOwnProperty"; "isPrototypeOf";
    "propertyIsEnumerable"; "toLocaleString"; "toString"; "valueOf";
    "__proto__"; "__defineGetter__"; "__defineSetter__";
    "__lookupGetter__"; "__lookupSetter__" ].

Definition inherited (k : string) : bool :=
  existsb (String.eqb k) Object_prototype.

End Js.

(** ** The mock authentication service *)

Module MockAuth.

Record MockUser := {
  id : string;
  email : string;
  first_name : string;
  last_name : string;
  (* declared 'employee' | 'manager' | 'admin'; [signUp] writes the field
     through a cast to [any], so at run time it is whatever string it
     was given *)
  role : string;
  created_at : string
}.

Record MockSession := {
  user : MockUser;
  access_token : string;
  expires_at : Z
}.

(** The third argument of [signUp]: [role] is optional. *)
Record UserData := {
  ud_first_name : string;
  ud_last_name : string;
  ud_role : option string
}.

Record AuthError := { message : string; code : string }.

(** [{ user?: MockUser; error?: any }]: the code builds one of two shapes. *)
Inductive SignUpResult :=
| SignUpUser (u : MockUser)
| SignUpError (e : AuthError).

(** [{ user?: MockUser; session?: MockSession; error?: any }]. *)
Inductive SignInResult :=
| SignInOk (u : MockUser) (s : MockSession)
| SignInError (e : AuthError).

Definition UserAlreadyExists : AuthError :=
  {| message := "User already registered"; code := "user_already_exists" |}.

Definition InvalidCredentials : AuthError :=
  {| message := "Invalid login credentials"; code := "invalid_credentials" |}.

(** *** The credential store and the world around it *)

(** The two slots of [localStorage] the service owns: the value under
    [MOCK_USERS_KEY] and the value under [MOCK_SESSION_KEY]. *)
Record Storage := {
  mock_users : option (list MockUser);
  mock_session : option MockSession
}.

Definition empty_storage : Storage :=
  {| mock_users := None; mock_session := None |}.

(** [clock n] is what the [n]-th coming call of [Date.now()] returns,
    [random n] what the [n]-th coming evaluation of
    [Math.random().toString(36).substring(2)] returns, and [iso_clock n]
    what the [n]-th coming [new Date().toISOString()] returns. *)
Record World := {
  localStorage : Storage;
  clock : nat → Z;
  random : nat → string;
  iso_clock : nat → string
}.

Definition with_storage (st : Storage) (w : World) : World :=
  {| localStorage := st; clock := clock w; random := random w;
     iso_clock := iso_clock w |}.

(** Effectful code threads the world. *)
Definition M (A : Type) : Type := World → A * World.

#[global] Instance M_ret : MRet M := λ A (a : A) w, (a, w).
#[global] Instance M_bind : MBind M :=
  λ A B (f : A → M B) (m : M A) w, let '(a, w') := m w in f a w'.

Definition Date_now : M Z := λ w,
  (clock w 0%nat,
   {| localStorage := localStorage w; clock := λ n, clock w (S n);
      random := random w; iso_clock := iso_clock w |}).

Definition Math_random_base36 : M string := λ w,
  (random w 0%nat,
   {| localStorage := localStorage w; clock := clock w;
      random := λ n, random w (S n); iso_clock := iso_clock w |}).

Definition new_Date_toISOString : M string := λ w,
  (iso_clock w 0%nat,
   {| localStorage := localStorage w; clock := clock w;
      random := random w; iso_clock := λ n, iso_clock w (S n) |}).

(** [for (const x of l) body(x)] *)
Fixpoint for_of {A} (l : list A) (body : A → M unit) : M unit :=
  match l with
  | [] => mret tt
  | x :: l' => _ ← body x; for_of l' body
  end.

(** *** Private storage helpers *)

Definition getStoredUsers : M (list MockUser) := λ w,
  (match mock_users (localStorage w) with
   | Some users => users
   | None => []
   end, w).

Definition saveUsers (users : list MockUser) : M unit := λ w,
  (tt, with_storage {| mock_users := Some users;
                       mock_session := mock_session (localStorage w) |} w).

Definition getStoredSession : M (option MockSession) := λ w,
  (mock_session (localStorage w), w).

Definition saveSession (session : option MockSession) : M unit := λ w,
  (tt, with_storage {| mock_users := mock_users (localStorage w);
                       mock_session := session |} w).

(** [users.find(u => u.email === email)] *)
Definition find_by_email (e : string) (users : list MockUser)
  : option MockUser :=
  find (λ u, String.eqb (email u) e) users.

(** *** Public operations *)

Definition signUp (email0 password : string) (userData : UserData)
  : M SignUpResult :=
  users ← getStoredUsers;
  match find_by_email email0 users with
  | Some _ => mret (SignUpError UserAlreadyExists)
  | None =>
      now ← Date_now;
      rnd ← Math_random_base36;
      created ← new_Date_toISOString;
      let newUser :=
        {| id := "mock_" +:+ pretty now +:+ "_" +:+ rnd;
           email := email0;
           first_name := ud_first_name userData;
           last_name := ud_last_name userData;
           role := Js.or_else (ud_role userData) "employee";
           created_at := created |} in
      _ ← saveUsers (users ++ [newUser]);
      mret (SignUpUser newUser)
  end.

Definition signIn (email0 password : string) : M SignInResult :=
  users ← getStoredUsers;
  match find_by_email email0 users with
  | None => mret (SignInError InvalidCredentials)
  | Some u =>
      t_token ← Date_now;
      t_expiry ← Date_now;
      let session :=
        {| user := u;
           access_token := "mock_token_" +:+ pretty t_token;
           expires_at := t_expiry + 24 * 60 * 60 * 1000 |} in
      _ ← saveSession (Some session);
      mret (SignInOk u session)
  end.

Definition signOut : M unit := saveSession None.

Definition getSession : M (option MockSession) :=
  session ← getStoredSession;
  match session with
  | Some s =>
      now ← Date_now;
      if expires_at s <? now
      then _ ← saveSession None; mret None
      else mret (Some s)
  | None => mret None
  end.

(** *** Leave policies *)

Record LeavePolicy := {
  annual_quota : Z;
  max_consecutive_days : Z;
  requires_approval : bool
}.

(** The own properties of the object literal [policies]. *)
Definition policies : gmap string LeavePolicy :=
  <["sick" := {| annual_quota := 10; max_consecutive_days := 5;
                 requires_approval := false |}]>
  (<["vacation" := {| annual_quota := 20; max_consecutive_days := 14;
                      requires_approval := true |}]>
  (<["family_emergency" := {| annual_quota := 5; max_consecutive_days := 3;
                              requires_approval := true |}]>
  (<["personal" := {| annual_quota := 5; max_consecutive_days := 2;
                      requires_approval := true |}]>
  (<["other" := {| annual_quota := 0; max_consecutive_days := 1;
                   requires_approval := true |}]> ∅)))).

(** What reading a property of [policies] can give: one of its entries,
    or a member it inherits from [Object.prototype]. *)
Inductive Property :=
| Entry (p : LeavePolicy)
| Builtin (name : string).

(** [policies[k]]: own properties first, then the prototype; [None] is
    [undefined]. *)
Definition policies_get (k : string) : option Property :=
  match policies !! k with
  | Some p => Some (Entry p)
  | None => if Js.inherited k then Some (Builtin k) else None
  end.

(** [policies[leave_type] || policies.other]: an entry and an inherited
    member are objects, hence truthy; only [undefined] takes the
    right-hand side. *)
Definition getLeavePolicy (leave_type : string) : option Property :=
  match policies_get leave_type with
  | Some v => Some v
  | None => policies_get "other"
  end.

(** *** Demo accounts *)

Record DemoUser := {
  demo_email : string;
  demo_password : string;
  demo_first_name : string;
  demo_last_name : string;
  demo_role : string
}.

Definition demoUsers : list DemoUser :=
  [ {| demo_email := "admin@demo.com"; demo_password := "demo123";
       demo_first_name := "Admin"; demo_last_name := "User";
       demo_role := "admin" |};
    {| demo_email := "manager@demo.com"; demo_password := "demo123";
       demo_first_name := "Manager"; demo_last_name := "User";
       demo_role := "manager" |};
    {| demo_email := "employee@demo.com"; demo_password := "demo123";
       demo_first_name := "Employee"; demo_last_name := "User";
       demo_role := "employee" |} ].

(** The body of the loop of [createDemoUsers]. *)
Definition createDemoUser (existingUsers : list MockUser) (demo : DemoUser)
  : M unit :=
  match find_by_email (demo_email demo) existingUsers with
  | Some _ => mret tt
  | None =>
      _ ← signUp (demo_email demo) (demo_password demo)
            {| ud_first_name := demo_first_name demo;
               ud_last_name := demo_last_name demo;
               ud_role := Some (demo_role demo) |};
      mret tt
  end.

(** [existingUsers] is read once, before the loop; [signUp] reads the
    store again on each call. *)
Definition createDemoUsers : M unit :=
  existingUsers ← getStoredUsers;
  for_of demoUsers (createDemoUser existingUsers).

End MockAuth.

(** ** The primary provider, as far as the coordinator looks at it *)

Module Supabase.

Record User := {
  id : string;
  email : option string;
  (* read with [?.]: the object may be missing; its values are taken to
     be strings *)
  user_metadata : option (gmap string string)
}.

Record Session := {
  user : User;
  access_token : string
}.

Record PostgrestError := { message : string; code : string }.

End Supabase.

(** ** The session coordinator: profile resolution *)

Module AuthContext.

Record Profile := {
  id : string;
  email : string;
  first_name : string;
  last_name : string;
  role : string;
  manager_id : option string;
  department : option string
}.

(** The result of [supabase.from('profiles').select('*').eq(..).single()]:
    a row and no error, or an error and no row. The row is kept at the
    type the state variable gives it. *)
Inductive PostgrestSingleResponse :=
| Success (data : Profile)
| Failure (error : Supabase.PostgrestError).

(** How an awaited promise ends. *)
Inductive Awaited (A : Type) :=
| Resolved (a : A)
| Rejected (reason : string).
Arguments Resolved {A} a.
Arguments Rejected {A} reason.

Inductive AnyUser :=
| OfSupabase (u : Supabase.User)
| OfMock (u : MockAuth.MockUser).

Inductive AnySession :=
| SupabaseSession (s : Supabase.Session)
| MockSession (s : MockAuth.MockSession).

(** The five [useState] cells of [AuthProvider]. *)
Record State := {
  user : option AnyUser;
  session : option AnySession;
  profile : option Profile;
  loading : bool;
  isMockMode : bool
}.

Definition initial : State :=
  {| user := None; session := None; profile := None; loading := true;
     isMockMode := false |}.

Definition setUser (v : option AnyUser) (s : State) : State :=
  {| user := v; session := session s; profile := profile s;
     loading := loading s; isMockMode := isMockMode s |}.
Definition setSession (v : option AnySession) (s : State) : State :=
  {| user := user s; session := v; profile := profile s;
     loading := loading s; isMockMode := isMockMode s |}.
Definition setProfile (v : option Profile) (s : State) : State :=
  {| user := user s; session := session s; profile := v;
     loading := loading s; isMockMode := isMockMode s |}.
Definition setLoading (v : bool) (s : State) : State :=
  {| user := user s; session := session s; profile := profile s;
     loading := v; isMockMode := isMockMode s |}.
Definition setIsMockMode (v : bool) (s : State) : State :=
  {| user := user s; session := session s; profile := profile s;
     loading := loading s; isMockMode := v |}.

(** [u.user_metadata?.k] *)
Definition metadata (u : Supabase.User) (k : string) : option string :=
  md ← Supabase.user_metadata u; md !! k.

(** The object literal the source writes out in each of its four
    failure branches. *)
Definition fallbackProfile (u : Supabase.User) : Profile :=
  {| id := Supabase.id u;
     email := Js.or_else (Supabase.email u) "";
     first_name := Js.or_else (metadata u "first_name") "User";
     last_name := Js.or_else (metadata u "last_name") "Name";
     role := Js.or_else (metadata u "role") "employee";
     manager_id := None;
     department := None |}.

Definition profileOfMock (u : MockAuth.MockUser) : Profile :=
  {| id := MockAuth.id u;
     email := MockAuth.email u;
     first_name := MockAuth.first_name u;
     last_name := MockAuth.last_name u;
     role := MockAuth.role u;
     manager_id := None;
     department := None |}.

(** The inner [try { ... } catch] of [initializeAuth]. *)
Definition fetchProfileAtStartup (u : Supabase.User)
    (fetched : Awaited PostgrestSingleResponse) (s : State) : State :=
  match fetched with
  | Resolved (Success profileData) => setProfile (Some profileData) s
  | Resolved (Failure _) =>
      setProfile (Some (fallbackProfile u)) (setIsMockMode true s)
  | Rejected _ =>
      setProfile (Some (fallbackProfile u)) (setIsMockMode true s)
  end.

(** [initializeAuth], given how the two calls to the primary provider
    end. A rejected [supabase.auth.getSession()] lands in the outer
    [catch]. *)
Definition initializeAuth
    (remote : Awaited (option Supabase.Session))
    (fetched : Awaited PostgrestSingleResponse)
    (s : State) : MockAuth.M State :=
  _ ← MockAuth.createDemoUsers;
  mockSession ← MockAuth.getSession;
  match mockSession with
  | Some ms =>
      mret (setLoading false
             (setProfile (Some (profileOfMock (MockAuth.user ms)))
               (setSession (Some (MockSession ms))
                 (setUser (Some (OfMock (MockAuth.user ms)))
                   (setIsMockMode true s)))))
  | None =>
      match remote with
      | Resolved (Some session0) =>
          let u := Supabase.user session0 in
          mret (setLoading false
                 (fetchProfileAtStartup u fetched
                   (setUser (Some (OfSupabase u))
                     (setSession (Some (SupabaseSession session0)) s))))
      | Resolved None => mret (setLoading false s)
      | Rejected _ => mret (setLoading false s)
      end
  end.

(** The callback given to [supabase.auth.onAuthStateChange];
    [mockMode] is the value of [isMockMode] the effect closed over. *)
Definition onAuthStateChange (mockMode : bool)
    (session0 : option Supabase.Session)
    (fetched : Awaited PostgrestSingleResponse) (s : State) : State :=
  if mockMode then s
  else
    let s1 := setUser (OfSupabase <$> (Supabase.user <$> session0))
                (setSession (SupabaseSession <$> session0) s) in
    match session0 with
    | Some sess =>
        let u := Supabase.user sess in
        match fetched with
        | Resolved (Success profileData) => setProfile (Some profileData) s1
        | Resolved (Failure _) => setProfile (Some (fallbackProfile u)) s1
        | Rejected _ => setProfile (Some (fallbackProfile u)) s1
        end
    | None => setProfile None s1
    end.

(** *** The operations the provider hands to the application *)

(** What [supabase.auth.signInWithPassword] resolves to, as far as the
    code reads it: [data.user] and [error]. An error object is kept by
    its message; only its presence is tested. *)
Record AuthTokenResponse := {
  data_user : option Supabase.User;
  auth_error : option string
}.

(** The [error] field of what [signIn] and [signUp] return. *)
Inductive SignError :=
| NoError
| FromMock (e : MockAuth.AuthError)
| FromPrimary (msg : string)
| Caught (reason : string).

(** The optional fields of the results of the mock service. *)
Definition signIn_user (r : MockAuth.SignInResult)
  : option MockAuth.MockUser :=
  match r with
  | MockAuth.SignInOk u _ => Some u
  | MockAuth.SignInError _ => None
  end.
Definition signIn_session (r : MockAuth.SignInResult)
  : option MockAuth.MockSession :=
  match r with
  | MockAuth.SignInOk _ ms => Some ms
  | MockAuth.SignInError _ => None
  end.
Definition signIn_error (r : MockAuth.SignInResult)
  : option MockAuth.AuthError :=
  match r with
  | MockAuth.SignInOk _ _ => None
  | MockAuth.SignInError e => Some e
  end.
Definition signUp_user (r : MockAuth.SignUpResult)
  : option MockAuth.MockUser :=
  match r with
  | MockAuth.SignUpUser u => Some u
  | MockAuth.SignUpError _ => None
  end.
Definition signUp_error (r : MockAuth.SignUpResult)
  : option MockAuth.AuthError :=
  match r with
  | MockAuth.SignUpUser _ => None
  | MockAuth.SignUpError e => Some e
  end.

(** [mockError || error] *)
Definition error_or (mockError : option MockAuth.AuthError)
    (error : option string) : SignError :=
  match mockError, error with
  | Some e, _ => FromMock e
  | None, Some msg => FromPrimary msg
  | None, None => NoError
  end.

(** The four setters that follow a successful mock sign-in. *)
Definition setMockIdentity (u : MockAuth.MockUser)
    (ms : MockAuth.MockSession) (s : State) : State :=
  setProfile (Some (profileOfMock u))
    (setSession (Some (MockSession ms))
      (setUser (Some (OfMock u)) s)).

(** [signIn], given how the call to the primary provider ends. *)
Definition signIn (primary : Awaited AuthTokenResponse)
    (email0 password : string) (s : State)
  : MockAuth.M (SignError * State) :=
  match primary with
  | Rejected reason => mret (Caught reason, s)
  | Resolved r =>
      match auth_error r, data_user r with
      | None, Some _ => mret (NoError, s)
      | _, _ =>
          mockResult ← MockAuth.signIn email0 password;
          match signIn_user mockResult, signIn_session mockResult with
          | Some u, Some ms =>
              mret (NoError, setMockIdentity u ms (setIsMockMode true s))
          | _, _ =>
              mret (error_or (signIn_error mockResult) (auth_error r), s)
          end
      end
  end.

(** [signUp]: the primary provider is not called. *)
Definition signUp (email0 password : string) (userData : MockAuth.UserData)
    (s : State) : MockAuth.M (SignError * State) :=
  mockResult ← MockAuth.signUp email0 password userData;
  match signUp_user mockResult with
  | Some _ =>
      let s1 := setIsMockMode true s in
      signInResult ← MockAuth.signIn email0 password;
      match signIn_user signInResult, signIn_session signInResult with
      | Some u, Some ms => mret (NoError, setMockIdentity u ms s1)
      | _, _ => mret (NoError, s1)
      end
  | None => mret (error_or (signUp_error mockResult) None, s)
  end.

(** A request the coordinator sends to the primary provider without
    reading what comes back. *)
Inductive PrimaryRequest :=
| AuthSignOut.

(** [signOut], with the requests it sends to the primary provider: in
    the branch that calls [supabase.auth.signOut()] nothing local is
    touched. *)
Definition signOut (s : State) : MockAuth.M (list PrimaryRequest * State) :=
  if isMockMode s then
    _ ← MockAuth.signOut;
    mret ([], setIsMockMode false
                (setProfile None (setSession None (setUser None s))))
  else mret ([AuthSignOut], s).

End AuthContext.

(** ** The navigation of the sidebar *)

Module AppSidebar.

Inductive Icon :=
| LayoutDashboard | CalendarDays | FileText | Users | Settings
| Calendar | CheckSquare | BarChart3.

Record NavItem := { title : string; url : string; icon : Icon }.

Definition employeeItems : list NavItem :=
  [ {| title := "Dashboard"; url := "/dashboard"; icon := LayoutDashboard |};
    {| title := "Request Leave"; url := "/leave/request";
       icon := CalendarDays |};
    {| title := "My Requests"; url := "/leave/my-requests";
       icon := FileText |};
    {| title := "Calendar"; url := "/calendar"; icon := Calendar |} ].

Definition managerItems : list NavItem :=
  [ {| title := "Dashboard"; url := "/dashboard"; icon := LayoutDashboard |};
    {| title := "Team Requests"; url := "/leave/team-requests";
       icon := CheckSquare |};
    {| title := "Team Calendar"; url := "/calendar"; icon := Calendar |};
    {| title := "Reports"; url := "/reports"; icon := BarChart3 |} ].

Definition adminItems : list NavItem :=
  [ {| title := "Dashboard"; url := "/dashboard"; icon := LayoutDashboard |};
    {| title := "All Requests"; url := "/admin/requests"; icon := FileText |};
    {| title := "Manage Users"; url := "/admin/users"; icon := Users |};
    {| title := "Leave Policies"; url := "/admin/policies";
       icon := Settings |};
    {| title := "Holidays"; url := "/admin/holidays"; icon := Calendar |};
    {| title := "Analytics"; url := "/admin/analytics";
       icon := BarChart3 |} ].

(** [switch (profile?.role)] *)
Definition getNavigationItems (profile : option AuthContext.Profile)
  : list NavItem :=
  match AuthContext.role <$> profile with
  | Some r =>
      if String.eqb r "admin" then adminItems
      else if String.eqb r "manager" then (employeeItems ++ managerItems)%list
      else employeeItems
  | None => employeeItems
  end.

(** [isActive] of the component, and the class [getNavCls] picks. *)
Definition isActive (currentPath path : string) : bool :=
  String.eqb currentPath path.

Definition getNavCls (active : bool) : string :=
  if active then "bg-primary text-primary-foreground"
  else "hover:bg-accent hover:text-accent-foreground".

End AppSidebar.

(** ** The dashboard: what is fetched and what is shown *)

Module Dashboard.

Import AuthContext.

Record DashboardStats := {
  totalRequests : nat;
  pendingRequests : nat;
  approvedRequests : nat;
  rejectedRequests : nat;
  totalEmployees : option nat
}.

Record RecentRequest := {
  id : string;
  leave_type : string;
  start_date : string;
  end_date : string;
  status : string;
  employee_name : option string
}.

(** A row of [leave_requests], with the columns the code reads. *)
Record LeaveRequest := {
  req_id : string;
  req_leave_type : string;
  req_start_date : string;
  req_end_date : string;
  req_status : string;
  req_employee_id : string
}.

(** A row of the admin query: the request and the joined profile names,
    which may be missing. *)
Record JoinedRequest := {
  request : LeaveRequest;
  profiles : option (string * string)
}.

(** A row of [profiles], with the columns the manager query selects. *)
Record TeamMember := {
  member_id : string;
  member_first_name : string;
  member_last_name : string
}.

(** How each query of [fetchDashboardData] ends: [data] or [count] of
    the response, [None] for [null]. A branch reads its own queries. *)
Record Responses := {
  admin_requests : Awaited (option (list JoinedRequest));
  count_employees : Awaited (option nat);
  count_requests : Awaited (option nat);
  count_pending : Awaited (option nat);
  count_approved : Awaited (option nat);
  count_rejected : Awaited (option nat);
  manager_requests : Awaited (option (list LeaveRequest));
  team_members : Awaited (option (list TeamMember));
  employee_requests : Awaited (option (list LeaveRequest))
}.

(** The three [useState] cells of [Dashboard]. *)
Record State := {
  stats : DashboardStats;
  recentRequests : list RecentRequest;
  loading : bool
}.

Definition initial : State :=
  {| stats := {| totalRequests := 0; pendingRequests := 0;
                 approvedRequests := 0; rejectedRequests := 0;
                 totalEmployees := None |};
     recentRequests := [];
     loading := true |}.

Definition setStats (v : DashboardStats) (s : State) : State :=
  {| stats := v; recentRequests := recentRequests s; loading := loading s |}.
Definition setRecentRequests (v : list RecentRequest) (s : State) : State :=
  {| stats := stats s; recentRequests := v; loading := loading s |}.
Definition setLoading (v : bool) (s : State) : State :=
  {| stats := stats s; recentRequests := recentRequests s; loading := v |}.

(** [n || 0] for a count that may be [null] *)
Definition or_zero (n : option nat) : nat := default 0%nat n.

(** [l || []] *)
Definition or_nil {A} (l : option (list A)) : list A := default [] l.

(** [requests.filter(req => req.status === st).length] *)
Definition count_status (st : string) (requests : list LeaveRequest) : nat :=
  length (filter (λ req, req_status req = st) requests).

Definition toRecent (name : option string) (req : LeaveRequest)
  : RecentRequest :=
  {| id := req_id req;
     leave_type := req_leave_type req;
     start_date := req_start_date req;
     end_date := req_end_date req;
     status := req_status req;
     employee_name := name |}.

(** [`${first} ${last}`] *)
Definition full_name (first last : string) : string :=
  first +:+ " " +:+ last.

(** The manager's filter: the requests of the team members and the
    manager's own. *)
Definition teamRequestsOf (managerId : string) (teamMemberIds : list string)
    (requests : list LeaveRequest) : list LeaveRequest :=
  filter (λ req, req_employee_id req ∈ teamMemberIds
                 ∨ req_employee_id req = managerId) requests.

(** [teamMembers?.find(member => member.id === req.employee_id)] and the
    name made of it, ['Unknown'] when there is none. *)
Definition memberName (teamMembers : option (list TeamMember))
    (req : LeaveRequest) : string :=
  match teamMembers ≫=
          find (λ m, String.eqb (member_id m) (req_employee_id req)) with
  | Some employee =>
      full_name (member_first_name employee) (member_last_name employee)
  | None => "Unknown"
  end.

(** The body of the [try] block of [fetchDashboardData]; [None] when an
    awaited call, or the read of [profile.id] on a missing profile,
    throws. *)
Definition tryFetch (profile : option Profile) (r : Responses) (s : State)
  : option State :=
  match profile with
  | None => None
  | Some p =>
      if String.eqb (role p) "admin" then
        match admin_requests r, count_employees r, count_requests r,
              count_pending r, count_approved r, count_rejected r with
        | Resolved requests, Resolved employees, Resolved total,
          Resolved pending, Resolved approved, Resolved rejected =>
            Some (setRecentRequests
                    (fmap (M:=list)
                       (λ req, toRecent
                                 (Some match profiles req with
                                       | Some (f, l) => full_name f l
                                       | None => "Unknown"
                                       end)
                                 (request req))
                       (or_nil requests))
                    (setStats
                       {| totalRequests := or_zero total;
                          pendingRequests := or_zero pending;
                          approvedRequests := or_zero approved;
                          rejectedRequests := or_zero rejected;
                          totalEmployees := Some (or_zero employees) |} s))
        | _, _, _, _, _, _ => None
        end
      else if String.eqb (role p) "manager" then
        match manager_requests r, team_members r with
        | Resolved requests, Resolved teamMembers =>
            let teamMemberIds :=
              or_nil (fmap (M:=option) (fmap (M:=list) member_id) teamMembers) in
            let teamRequests :=
              teamRequestsOf (AuthContext.id p) teamMemberIds
                (or_nil requests) in
            Some (setRecentRequests
                    (fmap (M:=list)
                       (λ req, toRecent (Some (memberName teamMembers req)) req)
                       teamRequests)
                    (setStats
                       {| totalRequests := length teamRequests;
                          pendingRequests := count_status "pending" teamRequests;
                          approvedRequests :=
                            count_status "approved" teamRequests;
                          rejectedRequests :=
                            count_status "rejected" teamRequests;
                          totalEmployees := None |} s))
        | _, _ => None
        end
      else
        match employee_requests r with
        | Resolved requests =>
            Some (setRecentRequests
                    (fmap (M:=list) (toRecent None) (or_nil requests))
                    (setStats
                       {| totalRequests := or_zero (fmap (M:=option) length requests);
                          pendingRequests :=
                            or_zero (fmap (M:=option) (count_status "pending") requests);
                          approvedRequests :=
                            or_zero (fmap (M:=option) (count_status "approved") requests);
                          rejectedRequests :=
                            or_zero (fmap (M:=option) (count_status "rejected") requests);
                          totalEmployees := None |} s))
        | Rejected _ => None
        end
  end.

(** [try { ... } catch { console.error } finally { setLoading(false) }] *)
Definition fetchDashboardData (profile : option Profile) (r : Responses)
    (s : State) : State :=
  setLoading false (default s (tryFetch profile r s)).

End Dashboard.

(** ** Vocabulary of the statements *)

Module Store.
Import MockAuth.

(** The user list and the session slot, as a raw read gives them. *)
Definition users (w : World) : list MockUser := fst (getStoredUsers w).
Definition session (w : World) : option MockSession :=
  fst (getStoredSession w).

(** Some stored user has the e-mail [e]. *)
Definition has_email (e : string) (w : World) : Prop :=
  ∃ u, u ∈ users w ∧ email u = e.

(** The roles the type [MockUser] declares. *)
Definition recognized_roles : list string := ["employee"; "manager"; "admin"].

(** The role the specification expects a successful sign-up to store,
    in the specification's words: the requested role when it is one of
    the recognized ones, [employee] otherwise. *)
Definition role_per_spec (requested : option string) : string :=
  match requested with
  | Some r => if bool_decide (r ∈ recognized_roles) then r else "employee"
  | None => "employee"
  end.

(** The leave types that are keys of the policy table. *)
Definition leave_types : list string :=
  ["sick"; "vacation"; "family_emergency"; "personal"; "other"].

Definition other_policy : LeavePolicy :=
  {| annual_quota := 0; max_consecutive_days := 1;
     requires_approval := true |}.

Definition day_ms : Z := 86400000.

(** The remote profile fetch failed: it returned an error, or threw. *)
Definition fetch_failed
    (fetched : AuthContext.Awaited AuthContext.PostgrestSingleResponse)
  : Prop :=
  match fetched with
  | AuthContext.Resolved (AuthContext.Success _) => False
  | AuthContext.Resolved (AuthContext.Failure _) => True
  | AuthContext.Rejected _ => True
  end.

(** A primary-provider user without metadata. *)
Definition bare_user : Supabase.User :=
  {| Supabase.id := "5ccce204-b320-46e0-bf07-ebbc72199a2b";
     Supabase.email := Some "b@x.com";
     Supabase.user_metadata := None |}.

(** A world with a given store, where every clock reading is [now]. *)
Definition frozen (st : Storage) (now : Z) : World :=
  {| localStorage := st; clock := λ _, now; random := λ _, "k3x9";
     iso_clock := λ _, "2025-07-26T05:38:27.000Z" |}.

Definition alice : MockUser :=
  {| id := "mock_1_a"; email := "a@x.com"; first_name := "A";
     last_name := "B"; role := "employee";
     created_at := "2025-07-26T05:38:27.000Z" |}.

Definition alice_session (expiry : Z) : MockSession :=
  {| user := alice; access_token := "mock_token_1"; expires_at := expiry |}.

End Store.

(** ** Clients of the service *)

Module Client.
Import MockAuth Store.

(** A call of a public operation, its result dropped. *)
Inductive Call :=
| SignUp (e pw : string) (ud : UserData)
| SignIn (e pw : string)
| SignOut
| GetSession
| CreateDemoUsers.

Definition call (c : Call) : M unit :=
  match c with
  | SignUp e pw ud => _ ← signUp e pw ud; mret tt
  | SignIn e pw => _ ← signIn e pw; mret tt
  | SignOut => signOut
  | GetSession => _ ← getSession; mret tt
  | CreateDemoUsers => createDemoUsers
  end.

(** A client that makes the calls one after the other. *)
Definition calls (cs : list Call) : M unit := for_of cs call.

(** No two stored users share an e-mail. *)
Definition emails_unique (w : World) : Prop := NoDup (email <$> users w).

(** The stored session, if any, is the session of a stored user. *)
Definition session_user_stored (w : World) : Prop :=
  ∀ s, session w = Some s → user s ∈ users w.

(** The e-mails of the demo identities. *)
Definition demo_emails : list string := demo_email <$> demoUsers.

Definition carol_data : UserData :=
  {| ud_first_name := "C"; ud_last_name := "D"; ud_role := None |}.

(** The user list of [w'] is that of [w] with [added] at its end, and
    the added users bring e-mails that are new and pairwise distinct. *)
Definition grows_by (added : list MockUser) (w w' : World) : Prop :=
  users w' = (users w ++ added)%list ∧
  NoDup (email <$> added) ∧
  ∀ u x, u ∈ added → x ∈ users w → email x ≠ email u.

(** The session slot of [w'] has the value it had in [w], or is empty,
    or holds a session of a user stored in [w']. *)
Definition session_moves (w w' : World) : Prop :=
  session w' = session w ∨
  session w' = None ∨
  ∃ s, session w' = Some s ∧ user s ∈ users w'.

Definition step (w w' : World) : Prop :=
  (∃ added, grows_by added w w') ∧ session_moves w w'.

(** The primary provider signed the user in: no error and a user. *)
Definition primary_signed_in (r : AuthContext.AuthTokenResponse) : Prop :=
  AuthContext.auth_error r = None ∧ is_Some (AuthContext.data_user r).

(** A response of the primary provider that rejects the credentials. *)
Definition primary_refusal : AuthContext.AuthTokenResponse :=
  {| AuthContext.data_user := None;
     AuthContext.auth_error := Some "Invalid login credentials" |}.

(** The state in which nobody is signed in and start-up is over. *)
Definition anonymous : AuthContext.State :=
  {| AuthContext.user := None; AuthContext.session := None;
     AuthContext.profile := None; AuthContext.loading := false;
     AuthContext.isMockMode := false |}.

(** A session of the primary provider for [bare_user]. *)
Definition bare_session : Supabase.Session :=
  {| Supabase.user := bare_user; Supabase.access_token := "eyJhbGciOi" |}.

(** The statuses the dashboard counts. *)
Definition counted_statuses : list string :=
  ["pending"; "approved"; "rejected"].

(** A profile with a given id and role. *)
Definition profile_of (i r : string) : AuthContext.Profile :=
  {| AuthContext.id := i; AuthContext.email := "m@x.com";
     AuthContext.first_name := "M"; AuthContext.last_name := "N";
     AuthContext.role := r; AuthContext.manager_id := None;
     AuthContext.department := None |}.

Definition request_of (i owner st : string) : Dashboard.LeaveRequest :=
  {| Dashboard.req_id := i; Dashboard.req_leave_type := "vacation";
     Dashboard.req_start_date := "2024-07-01";
     Dashboard.req_end_date := "2024-07-05";
     Dashboard.req_status := st; Dashboard.req_employee_id := owner |}.

(** Responses in which every query throws, but for the two of the
    manager branch. *)
Definition manager_responses
    (requests : list Dashboard.LeaveRequest)
    (team : list Dashboard.TeamMember) : Dashboard.Responses :=
  {| Dashboard.admin_requests := AuthContext.Rejected "unused";
     Dashboard.count_employees := AuthContext.Rejected "unused";
     Dashboard.count_requests := AuthContext.Rejected "unused";
     Dashboard.count_pending := AuthContext.Rejected "unused";
     Dashboard.count_approved := AuthContext.Rejected "unused";
     Dashboard.count_rejected := AuthContext.Rejected "unused";
     Dashboard.manager_requests := AuthContext.Resolved (Some requests);
     Dashboard.team_members := AuthContext.Resolved (Some team);
     Dashboard.employee_requests := AuthContext.Rejected "unused" |}.

Definition sample_team : list Dashboard.TeamMember :=
  [ {| Dashboard.member_id := "u2"; Dashboard.member_first_name := "Eve";
       Dashboard.member_last_name := "Stone" |} ].

Definition sample_requests : list Dashboard.LeaveRequest :=
  [ request_of "r1" "u2" "pending"; request_of "r2" "u1" "cancelled";
    request_of "r3" "u9" "approved" ].

(** A short client: two sign-ups with one e-mail, a sign-in, the demo
    accounts, a session read and a sign-out. *)
Definition sample_calls : list Call :=
  [ SignUp "c@x.com" "pw" carol_data;
    SignUp "c@x.com" "other" carol_data;
    SignIn "c@x.com" "whatever";
    CreateDemoUsers;
    GetSession;
    SignOut ].

End Client.

(** * Properties *)

Import MockAuth Store.

(** ** Looking a user up by e-mail *)

Section FindByEmail.

Implicit Types (e : string) (l : list MockUser) (u : MockUser).

Lemma find_by_email_Some e l u :
  find_by_email e l = Some u → u ∈ l ∧ email u = e.
Proof.
  unfold find_by_email. induction l as [|x l IH]; simpl; [done|].
  destruct (String.eqb_spec (email x) e) as [Heq|Hne].
  - intros [= <-]. split; [left | done].
  - intros H. destruct (IH H) as [Hin Hu]. split; [by right | done].
Qed.

Lemma find_by_email_None e l :
  find_by_email e l = None ↔ ∀ u, u ∈ l → email u ≠ e.
Proof.
  unfold find_by_email. induction l as [|x l IH]; simpl.
  - split; [|done]. intros _ u Hu. by apply not_elem_of_nil in Hu.
  - destruct (String.eqb_spec (email x) e) as [Heq|Hne].
    + split; [done|]. intros H. exfalso. apply (H x); [left | done].
    + rewrite IH. split.
      * intros H u Hu. apply elem_of_cons in Hu as [->|Hu]; auto.
      * intros H u Hu. apply H. by right.
Qed.

(** [find] returns the first match. *)
Lemma find_by_email_first e l u :
  find_by_email e l = Some u →
  ∃ l1 l2, l = (l1 ++ u :: l2)%list ∧ (∀ x, x ∈ l1 → email x ≠ e).
Proof.
  unfold find_by_email. induction l as [|x l IH]; simpl; [done|].
  destruct (String.eqb_spec (email x) e) as [Heq|Hne].
  - intros [= <-]. exists [], l. split; [done|].
    intros y Hy. by apply not_elem_of_nil in Hy.
  - intros H. destruct (IH H) as (l1 & l2 & -> & Hl1).
    exists (x :: l1), l2. split; [done|].
    intros y Hy. apply elem_of_cons in Hy as [->|Hy]; auto.
Qed.

Lemma find_by_email_is_Some e l :
  (∃ u, u ∈ l ∧ email u = e) → is_Some (find_by_email e l).
Proof.
  intros (u & Hin & Hu).
  destruct (find_by_email e l) as [v|] eqn:Hf; [by eexists|].
  exfalso. by apply (proj1 (find_by_email_None e l) Hf u).
Qed.

Lemma find_by_email_snoc_other e l u :
  email u ≠ e → find_by_email e (l ++ [u])%list = find_by_email e l.
Proof.
  intros Hne. unfold find_by_email.
  induction l as [|x l IH]; simpl.
  - by destruct (String.eqb_spec (email u) e).
  - by destruct (email x =? e)%string.
Qed.

Lemma find_by_email_snoc_same l u :
  is_Some (find_by_email (email u) (l ++ [u])%list).
Proof.
  apply find_by_email_is_Some. exists u. split; [|done].
  apply elem_of_app. right. by left.
Qed.

End FindByEmail.

(** ** The equations of the operations *)

(** Unfolds the binds of an operation applied to a world, keeping
  [find_by_email] folded. *)
Ltac run_M :=
unfold Store.users, Store.session in *;
unfold signUp, signIn, signOut, getSession, createDemoUsers;
unfold mbind, mret, M_bind, M_ret;
unfold getStoredUsers, getStoredSession, saveUsers, saveSession,
  Date_now, Math_random_base36, new_Date_toISOString, with_storage in *;
cbn [fst snd localStorage clock random iso_clock mock_users mock_session]
  in *.

Section Equations.

Implicit Types (w : World) (e pw : string) (ud : UserData).

Lemma signUp_taken w e pw ud :
  is_Some (find_by_email e (users w)) →
  signUp e pw ud w = (SignUpError UserAlreadyExists, w).
Proof. intros [u Hu]. run_M. by rewrite Hu. Qed.

Lemma signUp_fresh w e pw ud :
  find_by_email e (users w) = None →
  ∃ u w',
    signUp e pw ud w = (SignUpUser u, w') ∧
    u = {| id := "mock_" +:+ pretty (clock w 0) +:+ "_" +:+ random w 0;
           email := e;
           first_name := ud_first_name ud;
           last_name := ud_last_name ud;
           role := Js.or_else (ud_role ud) "employee";
           created_at := iso_clock w 0 |} ∧
    localStorage w' = {| mock_users := Some (users w ++ [u])%list;
                         mock_session := mock_session (localStorage w) |}.
Proof. intros Hu. run_M. rewrite Hu. by eexists _, _. Qed.

Lemma signIn_unknown w e pw :
  find_by_email e (users w) = None →
  signIn e pw w = (SignInError InvalidCredentials, w).
Proof. intros Hu. run_M. by rewrite Hu. Qed.

Lemma signIn_known w e pw u :
  find_by_email e (users w) = Some u →
  ∃ s w',
    signIn e pw w = (SignInOk u s, w') ∧
    s = {| user := u;
           access_token := "mock_token_" +:+ pretty (clock w 0);
           expires_at := clock w 1 + day_ms |} ∧
    localStorage w' = {| mock_users := mock_users (localStorage w);
                         mock_session := Some s |}.
Proof. intros Hu. run_M. rewrite Hu. by eexists _, _. Qed.

End Equations.

(** ** Sign-up *)

Section SignUp.

Implicit Types (w : World) (e pw : string) (ud : UserData).

Lemma no_user_with_email w e :
  (∀ u, u ∈ users w → email u ≠ e) ↔ find_by_email e (users w) = None.
Proof. symmetry. apply find_by_email_None. Qed.

(** C3. A [signUp] whose e-mail already belongs to a stored user fails
    with the [UserAlreadyExists] error, and the stored user list is the
    same before and after, in length and in contents; nothing at all is
    written to the store. *)
Theorem signUp_existing_email_rejected w e pw ud :
  has_email e w →
  ∃ w', signUp e pw ud w = (SignUpError UserAlreadyExists, w') ∧
        localStorage w' = localStorage w ∧
        users w' = users w ∧
        length (users w') = length (users w).
Proof.
  intros Hhas. exists w.
  rewrite signUp_taken; [done|]. by apply find_by_email_is_Some.
Qed.

Lemma signUp_existing_email_rejected_witness :
  let w := frozen {| mock_users := Some [alice]; mock_session := None |} 5 in
  has_email "a@x.com" w ∧
  ∃ w', signUp "a@x.com" "pw"
          {| ud_first_name := "A"; ud_last_name := "B"; ud_role := None |} w
        = (SignUpError UserAlreadyExists, w') ∧
        localStorage w' = localStorage w ∧
        users w' = users w ∧
        length (users w') = length (users w).
Proof.
  intros w.
  assert (Hhas : has_email "a@x.com" w).
  { exists alice. split; [left | reflexivity]. }
  split; [exact Hhas|].
  exact (signUp_existing_email_rejected w "a@x.com" "pw" _ Hhas).
Defined.

(** C9. A [signUp] whose e-mail no stored user has succeeds; afterwards
    the stored user list is the previous list with one record appended
    at the end, that record is the one [signUp] returns, every earlier
    position holds the user it held, and the session slot is as it
    was. *)
Theorem signUp_appends_returned_user w e pw ud :
  (∀ u, u ∈ users w → email u ≠ e) →
  ∃ u w',
    signUp e pw ud w = (SignUpUser u, w') ∧
    users w' = (users w ++ [u])%list ∧
    length (users w') = S (length (users w)) ∧
    (∀ i v, users w !! i = Some v → users w' !! i = Some v) ∧
    session w' = session w ∧
    email u = e ∧
    first_name u = ud_first_name ud ∧
    last_name u = ud_last_name ud.
Proof.
  intros Hfresh. apply no_user_with_email in Hfresh.
  destruct (signUp_fresh w e pw ud Hfresh) as (u & w' & Hrun & Hu & Hst).
  exists u, w'. split; [done|].
  assert (Husers : users w' = (users w ++ [u])%list).
  { unfold users at 1, getStoredUsers. cbn. by rewrite Hst. }
  rewrite Husers. repeat split.
  - rewrite length_app. cbn. lia.
  - intros i v Hi. by apply lookup_app_l_Some.
  - unfold session, getStoredSession. cbn. by rewrite Hst.
  - by subst u.
  - by subst u.
  - by subst u.
Qed.

Lemma signUp_appends_returned_user_witness :
  let w := frozen {| mock_users := Some [alice];
                     mock_session := Some (alice_session 10) |} 5 in
  let ud := {| ud_first_name := "C"; ud_last_name := "D";
               ud_role := Some "manager" |} in
  (∀ u, u ∈ users w → email u ≠ "c@x.com") ∧
  ∃ u w',
    signUp "c@x.com" "pw" ud w = (SignUpUser u, w') ∧
    users w' = (users w ++ [u])%list ∧
    length (users w') = S (length (users w)) ∧
    (∀ i v, users w !! i = Some v → users w' !! i = Some v) ∧
    session w' = session w ∧
    email u = "c@x.com" ∧
    first_name u = ud_first_name ud ∧
    last_name u = ud_last_name ud.
Proof.
  intros w ud.
  assert (Hfresh : ∀ u, u ∈ users w → email u ≠ "c@x.com").
  { intros u Hu. apply list_elem_of_singleton in Hu. subst u. discriminate. }
  split; [exact Hfresh|].
  exact (signUp_appends_returned_user w "c@x.com" "pw" ud Hfresh).
Defined.

Lemma or_else_truthy (r d : string) : r ≠ "" → Js.or_else (Some r) d = r.
Proof.
  intros Hr. unfold Js.or_else, Js.truthy.
  by destruct (String.eqb_spec r "").
Qed.

(** C2, as the code has it. A [signUp] whose e-mail no stored user has
    succeeds, and the role of the user it returns is the requested role
    whenever a non-empty role is given, whatever its value: so for
    [employee], [manager] and [admin], and for an unrecognized value
    too, which is kept as given. The role is [employee] when no role is
    given or the empty string is. *)
Theorem signUp_role_defaults_when_missing w e pw ud :
  (∀ u, u ∈ users w → email u ≠ e) →
  ∃ u w',
    signUp e pw ud w = (SignUpUser u, w') ∧
    (∀ r, ud_role ud = Some r → r ≠ "" → role u = r) ∧
    (∀ r, ud_role ud = Some r → r ∈ recognized_roles → role u = r) ∧
    (ud_role ud = None ∨ ud_role ud = Some "" → role u = "employee").
Proof.
  intros Hfresh. apply no_user_with_email in Hfresh.
  destruct (signUp_fresh w e pw ud Hfresh) as (u & w' & Hrun & Hu & _).
  exists u, w'. split; [done|]. subst u. cbn [role].
  assert (Hkeep : ∀ r, ud_role ud = Some r → r ≠ "" →
                       Js.or_else (ud_role ud) "employee" = r).
  { intros r -> Hr. by apply or_else_truthy. }
  repeat split.
  - exact Hkeep.
  - intros r Hr Hin. apply Hkeep; [done|].
    intros ->. unfold recognized_roles in Hin.
    repeat (apply elem_of_cons in Hin as [Hin|Hin]; [discriminate|]).
    by apply not_elem_of_nil in Hin.
  - by intros [-> | ->].
Qed.

Lemma signUp_role_defaults_when_missing_witness :
  let w := frozen empty_storage 5 in
  let ud := {| ud_first_name := "A"; ud_last_name := "B";
               ud_role := Some "manager" |} in
  (∀ u, u ∈ users w → email u ≠ "a@x.com") ∧
  ∃ u w',
    signUp "a@x.com" "pw" ud w = (SignUpUser u, w') ∧
    (∀ r, ud_role ud = Some r → r ≠ "" → role u = r) ∧
    (∀ r, ud_role ud = Some r → r ∈ recognized_roles → role u = r) ∧
    (ud_role ud = None ∨ ud_role ud = Some "" → role u = "employee").
Proof.
  intros w ud.
  assert (Hfresh : ∀ u, u ∈ users w → email u ≠ "a@x.com").
  { intros u Hu. by apply not_elem_of_nil in Hu. }
  split; [exact Hfresh|].
  exact (signUp_role_defaults_when_missing w "a@x.com" "pw" ud Hfresh).
Defined.

(** C2, as the specification states it, fails: a sign-up that asks for
    the role [superuser] succeeds and returns a user whose role is
    [superuser], not [employee]. *)
Lemma signUp_keeps_unrecognized_role :
  let w := frozen empty_storage 5 in
  let ud := {| ud_first_name := "A"; ud_last_name := "B";
               ud_role := Some "superuser" |} in
  ∃ u w',
    signUp "a@x.com" "pw" ud w = (SignUpUser u, w') ∧
    role u = "superuser" ∧
    role_per_spec (ud_role ud) = "employee" ∧
    role u ≠ role_per_spec (ud_role ud).
Proof.
  intros w ud. eexists _, _. split; [lazy; reflexivity|].
  split; [reflexivity|]. split; [reflexivity|]. discriminate.
Qed.

End SignUp.

(** ** Sign-in *)

Section SignIn.

Implicit Types (w : World) (e pw : string).

(** C4. [signIn] fails with the [InvalidCredentials] error exactly when
    no stored user has the given e-mail, and it fails in no other way;
    when a stored user has the e-mail it succeeds for every password,
    and the password has no influence on what it does. *)
Theorem signIn_fails_iff_email_unknown w e pw :
  (fst (signIn e pw w) = SignInError InvalidCredentials ↔
     ∀ u, u ∈ users w → email u ≠ e) ∧
  (∀ err, fst (signIn e pw w) = SignInError err → err = InvalidCredentials) ∧
  (has_email e w →
     ∀ pw', ∃ u s, fst (signIn e pw' w) = SignInOk u s ∧ email u = e) ∧
  (∀ pw', signIn e pw' w = signIn e pw w).
Proof.
  destruct (find_by_email e (users w)) as [u|] eqn:Hf.
  - destruct (find_by_email_Some _ _ _ Hf) as [Hin Hu].
    destruct (signIn_known w e pw u Hf) as (s & w' & Hrun & _).
    rewrite Hrun. cbn [fst]. repeat split; try done.
    + intros H. exfalso. by apply (H u).
    + intros _ pw'. exists u, s.
      change (signIn e pw' w) with (signIn e pw w). by rewrite Hrun.
  - rewrite (signIn_unknown w e pw Hf). cbn [fst]. repeat split; try done.
    + intros _. by apply find_by_email_None.
    + by intros err [= <-].
    + intros Hhas. apply find_by_email_is_Some in Hhas.
      rewrite Hf in Hhas. by destruct Hhas.
    + intros pw'. by apply signIn_unknown.
Qed.

(** C5. A [signIn] for the e-mail of a stored user succeeds. With [T]
    the reading of the clock its expiry computation takes (the second
    reading of the call), the session it builds expires at [T] plus 24
    hours and is bound to the first stored user with that e-mail; after
    the call the session slot holds that session whatever it held
    before, and the call returns that user together with that
    session. *)
Theorem signIn_creates_24h_session w e pw :
  has_email e w →
  ∃ u s w',
    signIn e pw w = (SignInOk u s, w') ∧
    expires_at s = clock w 1 + 24 * 60 * 60 * 1000 ∧
    expires_at s = clock w 1 + day_ms ∧
    user s = u ∧
    email u = e ∧
    (∃ l1 l2, users w = (l1 ++ u :: l2)%list ∧
              ∀ x, x ∈ l1 → email x ≠ e) ∧
    session w' = Some s.
Proof.
  intros Hhas. apply find_by_email_is_Some in Hhas as [u Hf].
  destruct (signIn_known w e pw u Hf) as (s & w' & Hrun & Hs & Hst).
  exists u, s, w'. split; [done|].
  destruct (find_by_email_Some _ _ _ Hf) as [_ Hu].
  split; [by subst s|]. split; [by subst s|]. split; [by subst s|].
  split; [done|]. split; [by apply find_by_email_first|].
  unfold session, getStoredSession. cbn. by rewrite Hst.
Qed.

Lemma signIn_creates_24h_session_witness :
  let w := frozen {| mock_users := Some [alice];
                     mock_session := Some (alice_session 10) |} 1000 in
  has_email "a@x.com" w ∧
  ∃ u s w',
    signIn "a@x.com" "anything" w = (SignInOk u s, w') ∧
    expires_at s = clock w 1 + 24 * 60 * 60 * 1000 ∧
    expires_at s = clock w 1 + day_ms ∧
    user s = u ∧
    email u = "a@x.com" ∧
    (∃ l1 l2, users w = (l1 ++ u :: l2)%list ∧
              ∀ x, x ∈ l1 → email x ≠ "a@x.com") ∧
    session w' = Some s.
Proof.
  intros w.
  assert (Hhas : has_email "a@x.com" w).
  { exists alice. split; [left | reflexivity]. }
  split; [exact Hhas|].
  exact (signIn_creates_24h_session w "a@x.com" "anything" Hhas).
Defined.

(** C10. [signIn] never changes the stored user list. A failed [signIn]
    leaves the store as it was; a successful one changes the session
    slot, to the session it returns, and nothing else. *)
Theorem signIn_writes_only_session_slot w e pw :
  users (snd (signIn e pw w)) = users w ∧
  mock_users (localStorage (snd (signIn e pw w))) =
    mock_users (localStorage w) ∧
  match fst (signIn e pw w) with
  | SignInError _ => localStorage (snd (signIn e pw w)) = localStorage w
  | SignInOk _ s =>
      localStorage (snd (signIn e pw w)) =
        {| mock_users := mock_users (localStorage w);
           mock_session := Some s |}
  end.
Proof.
  destruct (find_by_email e (users w)) as [u|] eqn:Hf.
  - destruct (signIn_known w e pw u Hf) as (s & w' & Hrun & _ & Hst).
    rewrite Hrun. cbn [fst snd]. rewrite Hst.
    unfold users, getStoredUsers. cbn. by rewrite Hst.
  - by rewrite (signIn_unknown w e pw Hf).
Qed.

End SignIn.

(** ** Session retrieval *)

Section GetSession.

Implicit Types (w : World) (s : MockSession).

Lemma getSession_absent w :
  session w = None → getSession w = (None, w).
Proof. intros Hs. run_M. by rewrite Hs. Qed.

Lemma getSession_expired w s :
  session w = Some s → expires_at s < clock w 0 →
  ∃ w', getSession w = (None, w') ∧
        localStorage w' = {| mock_users := mock_users (localStorage w);
                             mock_session := None |}.
Proof.
  intros Hs Hlt. run_M. rewrite Hs.
  apply Z.ltb_lt in Hlt. rewrite Hlt. by eexists.
Qed.

Lemma getSession_live w s :
  session w = Some s → clock w 0 ≤ expires_at s →
  ∃ w', getSession w = (Some s, w') ∧ localStorage w' = localStorage w.
Proof.
  intros Hs Hle. run_M. rewrite Hs.
  apply Z.ltb_ge in Hle. rewrite Hle. by eexists.
Qed.

(** C1, as the code has it. With a session stored and [now] the reading
    of the clock, [getSession] returns the session exactly when [now] is
    at or before its expiry instant, and then leaves the store as it
    was; it returns absent exactly when the expiry instant is strictly
    before [now], and then the session slot is empty afterwards while
    the user list is untouched. *)
Theorem getSession_valid_through_expiry_instant w s :
  session w = Some s →
  (fst (getSession w) = Some s ↔ clock w 0 ≤ expires_at s) ∧
  (fst (getSession w) = None ↔ expires_at s < clock w 0) ∧
  (expires_at s < clock w 0 →
     session (snd (getSession w)) = None ∧
     users (snd (getSession w)) = users w) ∧
  (clock w 0 ≤ expires_at s →
     localStorage (snd (getSession w)) = localStorage w).
Proof.
  intros Hs.
  destruct (Z.lt_ge_cases (expires_at s) (clock w 0)) as [Hlt|Hle].
  - destruct (getSession_expired w s Hs Hlt) as (w' & Hrun & Hst).
    rewrite Hrun. cbn [fst snd].
    split; [split; [done | lia]|]. split; [done|].
    split; [|lia]. intros _.
    unfold session, users, getStoredSession, getStoredUsers. cbn.
    by rewrite Hst.
  - destruct (getSession_live w s Hs Hle) as (w' & Hrun & Hst).
    rewrite Hrun. cbn [fst snd].
    split; [done|]. split; [split; [done | lia]|].
    split; [lia | done].
Qed.

Lemma getSession_valid_through_expiry_instant_witness :
  let s := alice_session 1000 in
  let w := frozen {| mock_users := Some [alice];
                     mock_session := Some s |} 1001 in
  session w = Some s ∧
  (fst (getSession w) = Some s ↔ clock w 0 ≤ expires_at s) ∧
  (fst (getSession w) = None ↔ expires_at s < clock w 0) ∧
  (expires_at s < clock w 0 →
     session (snd (getSession w)) = None ∧
     users (snd (getSession w)) = users w) ∧
  (clock w 0 ≤ expires_at s →
     localStorage (snd (getSession w)) = localStorage w).
Proof.
  intros s w. split; [reflexivity|].
  exact (getSession_valid_through_expiry_instant w s eq_refl).
Defined.

(** C1, as the specification states it, fails at the expiry instant
    itself: with a session that expires at 1000 and the clock reading
    1000, the current time is not strictly before the expiry instant,
    yet [getSession] returns the session and leaves it in the store. *)
Lemma getSession_at_expiry_instant_keeps_session :
  let s := alice_session 1000 in
  let w := frozen {| mock_users := Some [alice];
                     mock_session := Some s |} 1000 in
  session w = Some s ∧
  ¬ (clock w 0 < expires_at s) ∧
  fst (getSession w) = Some s ∧
  session (snd (getSession w)) = Some s.
Proof.
  intros s w. split; [reflexivity|]. split; [cbn; lia|].
  split; reflexivity.
Qed.

End GetSession.

(** ** Demo accounts *)

Section DemoUsers.

Implicit Types (w : World).

Lemma find_by_email_app_prefix e (l l' : list MockUser) :
  is_Some (find_by_email e l) → is_Some (find_by_email e (l ++ l')%list).
Proof.
  intros [u Hu]. destruct (find_by_email_Some _ _ _ Hu) as [Hin He].
  apply find_by_email_is_Some. exists u. split; [|done].
  apply elem_of_app. by left.
Qed.

(** Whatever its outcome, [signUp] leaves a user with the e-mail in the
    store, and no e-mail disappears. *)
Lemma signUp_ensures_email w e pw ud :
  is_Some (find_by_email e (users (snd (signUp e pw ud w)))) ∧
  ∀ e', is_Some (find_by_email e' (users w)) →
        is_Some (find_by_email e' (users (snd (signUp e pw ud w)))).
Proof.
  destruct (find_by_email e (users w)) as [u|] eqn:Hf.
  - rewrite signUp_taken by (by eexists). cbn [snd].
    split; [by eexists | done].
  - destruct (signUp_fresh w e pw ud Hf) as (u & w' & Hrun & Hu & Hst).
    rewrite Hrun. cbn [snd].
    assert (Husers : users w' = (users w ++ [u])%list).
    { unfold users at 1, getStoredUsers. cbn. by rewrite Hst. }
    rewrite Husers. split.
    + replace e with (email u) by (by subst u).
      apply find_by_email_snoc_same.
    + intros e'. apply find_by_email_app_prefix.
Qed.

Lemma createDemoUser_ensures_email existing d w :
  (∀ e, is_Some (find_by_email e existing) →
        is_Some (find_by_email e (users w))) →
  is_Some (find_by_email (demo_email d)
             (users (snd (createDemoUser existing d w)))) ∧
  ∀ e, is_Some (find_by_email e (users w)) →
       is_Some (find_by_email e (users (snd (createDemoUser existing d w)))).
Proof.
  intros Hsub. unfold createDemoUser.
  destruct (find_by_email (demo_email d) existing) as [u|] eqn:Hf.
  - cbn. split; [|done]. apply Hsub. rewrite Hf. by eexists.
  - unfold mbind, M_bind, mret, M_ret.
    match goal with |- context [signUp ?e ?p ?ud w] =>
      pose proof (signUp_ensures_email w e p ud) as Hsu;
      destruct (signUp e p ud w) as [res w'] end.
    exact Hsu.
Qed.

(** The loop invariant: what the snapshot has, the store has. *)
Lemma for_of_createDemoUser existing ds w :
  (∀ e, is_Some (find_by_email e existing) →
        is_Some (find_by_email e (users w))) →
  (∀ d, d ∈ ds →
     is_Some (find_by_email (demo_email d)
                (users (snd (for_of ds (createDemoUser existing) w))))) ∧
  ∀ e, is_Some (find_by_email e (users w)) →
       is_Some (find_by_email e
                  (users (snd (for_of ds (createDemoUser existing) w)))).
Proof.
  revert w. induction ds as [|d ds IH]; intros w Hsub.
  - cbn. split; [|done]. intros d Hd. by apply not_elem_of_nil in Hd.
  - cbn [for_of]. unfold mbind, M_bind.
    destruct (createDemoUser_ensures_email existing d w Hsub)
      as [Hd Hmono].
    destruct (createDemoUser existing d w) as [[] w1]. cbn [snd] in *.
    destruct (IH w1) as [Hall Hmono1]; [by auto|].
    split; [|by auto].
    intros d' Hd'. apply elem_of_cons in Hd' as [->|Hd']; auto.
Qed.

(** After a run, each demo identity has a user in the store. *)
Lemma createDemoUsers_ensures_all w d :
  d ∈ demoUsers →
  is_Some (find_by_email (demo_email d) (users (snd (createDemoUsers w)))).
Proof.
  intros Hd. unfold createDemoUsers, mbind, M_bind.
  change (getStoredUsers w) with (users w, w). cbn iota.
  destruct (for_of_createDemoUser (users w) demoUsers w) as [Hall _];
    [done | by apply Hall].
Qed.

(** A run that finds every demo identity in the store writes nothing. *)
Lemma createDemoUsers_skips_present w :
  (∀ d, d ∈ demoUsers → is_Some (find_by_email (demo_email d) (users w))) →
  createDemoUsers w = (tt, w).
Proof.
  intros Hall. unfold createDemoUsers, mbind, M_bind.
  change (getStoredUsers w) with (users w, w). cbn iota.
  generalize dependent demoUsers. intros ds.
  induction ds as [|d ds IH]; intros Hall; [done|].
  cbn [for_of]. unfold mbind, M_bind, createDemoUser at 1.
  destruct (Hall d) as [u ->]; [by left|]. cbn.
  apply IH. intros d' Hd'. apply Hall. by right.
Qed.

(** On every store, a second run of [createDemoUsers] is a no-op. *)
Lemma createDemoUsers_idempotent w :
  createDemoUsers (snd (createDemoUsers w)) = (tt, snd (createDemoUsers w)).
Proof.
  apply createDemoUsers_skips_present. intros d Hd.
  by apply createDemoUsers_ensures_all.
Qed.

(** C6. From an empty store, one run of [createDemoUsers] stores three
    users, and a second run straight after changes nothing: there are
    three users then, not six, one for each of the demo identities
    admin, manager and employee, in that order. *)
Theorem createDemoUsers_twice_gives_three w :
  localStorage w = empty_storage →
  length (users (snd (createDemoUsers w))) = 3%nat ∧
  length (users (snd (createDemoUsers (snd (createDemoUsers w))))) = 3%nat ∧
  map email (users (snd (createDemoUsers (snd (createDemoUsers w))))) =
    ["admin@demo.com"; "manager@demo.com"; "employee@demo.com"] ∧
  map role (users (snd (createDemoUsers (snd (createDemoUsers w))))) =
    ["admin"; "manager"; "employee"] ∧
  localStorage (snd (createDemoUsers (snd (createDemoUsers w)))) =
    localStorage (snd (createDemoUsers w)).
Proof.
  destruct w as [st c r i]. cbn [localStorage]. intros ->.
  repeat split.
Qed.

Lemma createDemoUsers_twice_gives_three_witness :
  let w := frozen empty_storage 1753508307000 in
  localStorage w = empty_storage ∧
  length (users (snd (createDemoUsers w))) = 3%nat ∧
  length (users (snd (createDemoUsers (snd (createDemoUsers w))))) = 3%nat ∧
  map email (users (snd (createDemoUsers (snd (createDemoUsers w))))) =
    ["admin@demo.com"; "manager@demo.com"; "employee@demo.com"] ∧
  map role (users (snd (createDemoUsers (snd (createDemoUsers w))))) =
    ["admin"; "manager"; "employee"] ∧
  localStorage (snd (createDemoUsers (snd (createDemoUsers w)))) =
    localStorage (snd (createDemoUsers w)).
Proof.
  intros w. split; [reflexivity|].
  exact (createDemoUsers_twice_gives_three w eq_refl).
Defined.

End DemoUsers.

(** ** Leave policies *)

Section LeavePolicies.

Implicit Types (k : string).

Lemma policies_lookup_unknown k : k ∉ leave_types → policies !! k = None.
Proof.
  unfold leave_types. intros Hk.
  repeat (apply not_elem_of_cons in Hk as [? Hk]).
  unfold policies. by repeat (rewrite lookup_insert_ne by done).
Qed.

(** A leave type of the table gets its own entry. *)
Lemma getLeavePolicy_known k :
  k ∈ leave_types →
  is_Some (policies !! k) ∧ getLeavePolicy k = Entry <$> policies !! k.
Proof.
  unfold leave_types. intros Hk.
  repeat (apply elem_of_cons in Hk as [->|Hk]; [by split; [eexists|]|]).
  by apply not_elem_of_nil in Hk.
Qed.

(** A key that is neither in the table nor a member of
    [Object.prototype] gets the [other] entry. *)
Lemma getLeavePolicy_unknown k :
  k ∉ leave_types → Js.inherited k = false →
  getLeavePolicy k = Some (Entry other_policy).
Proof.
  intros Hk Hproto. unfold getLeavePolicy, policies_get.
  by rewrite (policies_lookup_unknown k Hk), Hproto.
Qed.

(** A key that [Object.prototype] defines gets that member. *)
Lemma getLeavePolicy_inherited k :
  Js.inherited k = true → getLeavePolicy k = Some (Builtin k).
Proof.
  intros Hproto. unfold getLeavePolicy, policies_get.
  destruct (decide (k ∈ leave_types)) as [Hin|Hout].
  - exfalso. unfold leave_types in Hin.
    repeat (apply elem_of_cons in Hin as [->|Hin]; [discriminate|]).
    by apply not_elem_of_nil in Hin.
  - by rewrite (policies_lookup_unknown k Hout), Hproto.
Qed.

(** The lookup gives a value for every key. *)
Lemma getLeavePolicy_total k : is_Some (getLeavePolicy k).
Proof.
  destruct (decide (k ∈ leave_types)) as [Hin|Hout].
  - destruct (getLeavePolicy_known k Hin) as [[p Hp] ->].
    rewrite Hp. by eexists.
  - destruct (Js.inherited k) eqn:Hproto.
    + rewrite getLeavePolicy_inherited by done. by eexists.
    + rewrite getLeavePolicy_unknown by done. by eexists.
Qed.

(** C7, at the key [constructor]. The key is none of the five leave
    types, and the lookup does not give the [other] entry: it gives the
    member [constructor] that the table inherits from
    [Object.prototype]. *)
Theorem getLeavePolicy_constructor_not_other :
  ("constructor" ∉ leave_types) ∧
  (getLeavePolicy "constructor" = Some (Builtin "constructor")) ∧
  (getLeavePolicy "constructor" ≠ Some (Entry other_policy)).
Proof.
  split; [|split; [reflexivity | discriminate]].
  unfold leave_types. intros Hin.
  repeat (apply elem_of_cons in Hin as [Hin|Hin]; [discriminate|]).
  by apply not_elem_of_nil in Hin.
Qed.

End LeavePolicies.

(** ** Profile resolution in the session coordinator *)

Section ProfileResolution.

Import AuthContext.

Implicit Types (sess : Supabase.Session) (s : State)
  (fetched : Awaited PostgrestSingleResponse).

(** C8. Take a session of the primary provider with its user. At
    start-up, when no valid mock session is found, and in the
    session-change callback, when mock mode is off: if the remote
    profile fetch returns an error or throws, the profile that is set is
    the synthesized one; if the fetch succeeds, it is the fetched
    record. The synthesized profile has the id of the session user and
    its e-mail, and each of first name, last name and role comes from
    the user's metadata when present and non-empty, and is ["User"],
    ["Name"] and ["employee"] when the field, or the metadata as a
    whole, is missing. *)
Theorem profile_fetch_failure_synthesizes_profile sess fetched s w :
  fst (MockAuth.getSession (snd (createDemoUsers w))) = None →
  let u := Supabase.user sess in
  let at_startup :=
    profile (fst (initializeAuth (Resolved (Some sess)) fetched s w)) in
  let on_change := profile (onAuthStateChange false (Some sess) fetched s) in
  (fetch_failed fetched →
     at_startup = Some (fallbackProfile u) ∧
     on_change = Some (fallbackProfile u)) ∧
  (∀ row, fetched = Resolved (Success row) →
     at_startup = Some row ∧ on_change = Some row) ∧
  AuthContext.id (fallbackProfile u) = Supabase.id u ∧
  (∀ m, Supabase.email u = Some m →
     AuthContext.email (fallbackProfile u) = m) ∧
  (∀ v, metadata u "first_name" = Some v → v ≠ "" →
     AuthContext.first_name (fallbackProfile u) = v) ∧
  (∀ v, metadata u "last_name" = Some v → v ≠ "" →
     AuthContext.last_name (fallbackProfile u) = v) ∧
  (∀ v, metadata u "role" = Some v → v ≠ "" →
     AuthContext.role (fallbackProfile u) = v) ∧
  (metadata u "first_name" = None →
     AuthContext.first_name (fallbackProfile u) = "User") ∧
  (metadata u "last_name" = None →
     AuthContext.last_name (fallbackProfile u) = "Name") ∧
  (metadata u "role" = None →
     AuthContext.role (fallbackProfile u) = "employee").
Proof.
  intros Hmock u at_startup on_change.
  assert (Hinit : at_startup =
                  profile (fetchProfileAtStartup u fetched
                    (setUser (Some (OfSupabase u))
                      (setSession (Some (SupabaseSession sess)) s)))).
  { subst at_startup. unfold initializeAuth, mbind, M_bind.
    destruct (createDemoUsers w) as [[] w1]. cbn [snd] in Hmock.
    destruct (MockAuth.getSession w1) as [ms w2]. cbn [fst] in Hmock.
    by subst ms. }
  split; [|split].
  - intros Hfail. rewrite Hinit. subst on_change.
    by destruct fetched as [[row|err]|reason].
  - intros row ->. by rewrite Hinit.
  - cbn [fallbackProfile AuthContext.id AuthContext.email
         AuthContext.first_name AuthContext.last_name AuthContext.role].
    split; [done|]. split.
    { intros m ->. unfold Js.or_else, Js.truthy.
      by destruct (String.eqb_spec m ""). }
    repeat split.
    all: try (intros v -> Hv; by apply or_else_truthy).
    all: by intros ->.
Qed.

Lemma profile_fetch_failure_synthesizes_profile_witness :
  let sess := {| Supabase.user := bare_user;
                 Supabase.access_token := "eyJhbGciOi" |} in
  let fetched : Awaited PostgrestSingleResponse :=
    Rejected "TypeError: Failed to fetch" in
  let w := frozen empty_storage 5 in
  fst (MockAuth.getSession (snd (createDemoUsers w))) = None ∧
  fetch_failed fetched ∧
  profile (fst (initializeAuth (Resolved (Some sess)) fetched initial w)) =
    Some {| AuthContext.id := "5ccce204-b320-46e0-bf07-ebbc72199a2b";
            AuthContext.email := "b@x.com";
            AuthContext.first_name := "User";
            AuthContext.last_name := "Name";
            AuthContext.role := "employee";
            AuthContext.manager_id := None;
            AuthContext.department := None |} ∧
  profile (onAuthStateChange false (Some sess) fetched initial) =
    Some (fallbackProfile bare_user).
Proof.
  intros sess fetched w.
  assert (Hmock : fst (MockAuth.getSession (snd (createDemoUsers w))) = None)
    by reflexivity.
  split; [exact Hmock|]. split; [exact I|].
  exact (proj1 (profile_fetch_failure_synthesizes_profile
                  sess fetched initial w Hmock) I).
Defined.

End ProfileResolution.

(** * Further properties of the service *)

Import Client.

(** ** What a call does to the store *)

Section Steps.

Implicit Types (w : World) (e pw : string) (ud : UserData).

Lemma bind_run {A B} (m : M A) (f : A → M B) w :
  (m ≫= f) w = f (fst (m w)) (snd (m w)).
Proof. unfold mbind, M_bind. by destruct (m w). Qed.

Lemma find_by_email_snoc_fresh e (l : list MockUser) u :
  find_by_email e l = None → email u = e →
  find_by_email e (l ++ [u])%list = Some u.
Proof.
  intros Hnone Hu. unfold find_by_email in *.
  induction l as [|x l IH]; simpl in *.
  - by destruct (String.eqb_spec (email u) e).
  - destruct (email x =? e)%string; [done | by apply IH].
Qed.

(** The world a successful [signUp] leaves: one reading taken from each
    source. *)
Lemma signUp_fresh_world w e pw ud :
  find_by_email e (users w) = None →
  let u := {| id := "mock_" +:+ pretty (clock w 0) +:+ "_" +:+ random w 0;
              email := e;
              first_name := ud_first_name ud;
              last_name := ud_last_name ud;
              role := Js.or_else (ud_role ud) "employee";
              created_at := iso_clock w 0 |} in
  signUp e pw ud w =
    (SignUpUser u,
     {| localStorage := {| mock_users := Some (users w ++ [u])%list;
                           mock_session := mock_session (localStorage w) |};
        clock := λ n, clock w (S n);
        random := λ n, random w (S n);
        iso_clock := λ n, iso_clock w (S n) |}).
Proof. intros Hu. run_M. by rewrite Hu. Qed.

(** The world a successful [signIn] leaves: two readings of the clock
    taken. *)
Lemma signIn_known_world w e pw u :
  find_by_email e (users w) = Some u →
  let s := {| user := u;
              access_token := "mock_token_" +:+ pretty (clock w 0);
              expires_at := clock w 1 + day_ms |} in
  signIn e pw w =
    (SignInOk u s,
     {| localStorage := {| mock_users := mock_users (localStorage w);
                           mock_session := Some s |};
        clock := λ n, clock w (S (S n));
        random := random w;
        iso_clock := iso_clock w |}).
Proof. intros Hu. run_M. by rewrite Hu. Qed.

Lemma signUp_step w e pw ud :
  localStorage (snd (signUp e pw ud w)) = localStorage w ∨
  ∃ u, email u = e ∧
       (∀ x, x ∈ users w → email x ≠ e) ∧
       users (snd (signUp e pw ud w)) = (users w ++ [u])%list ∧
       session (snd (signUp e pw ud w)) = session w.
Proof.
  destruct (find_by_email e (users w)) as [u|] eqn:Hf.
  - left. by rewrite signUp_taken by (by eexists).
  - right. rewrite (signUp_fresh_world w e pw ud Hf). cbn [snd].
    eexists.
    split; [|split; [by apply find_by_email_None | split; reflexivity]].
    reflexivity.
Qed.

Lemma signIn_step w e pw :
  users (snd (signIn e pw w)) = users w ∧
  (session (snd (signIn e pw w)) = session w ∨
   ∃ s, session (snd (signIn e pw w)) = Some s ∧ user s ∈ users w).
Proof.
  destruct (find_by_email e (users w)) as [u|] eqn:Hf.
  - rewrite (signIn_known_world w e pw u Hf). cbn [snd].
    split; [done|]. right. eexists. split; [done|]. cbn [user].
    by destruct (find_by_email_Some _ _ _ Hf).
  - rewrite (signIn_unknown w e pw Hf). auto.
Qed.

Lemma signOut_step w :
  users (snd (signOut w)) = users w ∧ session (snd (signOut w)) = None.
Proof. split; reflexivity. Qed.

Lemma getSession_step w :
  users (snd (getSession w)) = users w ∧
  (session (snd (getSession w)) = session w ∨
   session (snd (getSession w)) = None).
Proof.
  run_M. destruct (mock_session (localStorage w)) as [s|] eqn:Hs.
  - destruct (expires_at s <? clock w 0); cbn.
    + split; [reflexivity | by right].
    + split; [reflexivity | by left].
  - cbn. split; [reflexivity | by right].
Qed.

End Steps.

(** ** Sign-out, session lifetime and the sign-up scenario *)

Section Lifecycle.

Implicit Types (w : World) (e pw : string) (ud : UserData).

(** X1. [signOut] empties the session slot and leaves the user list as
    it is; a second [signOut] changes nothing more, and a [getSession]
    after it finds no session, whatever the clock says. *)
Theorem signOut_clears_session_for_good w :
  session (snd (signOut w)) = None ∧
  mock_users (localStorage (snd (signOut w))) = mock_users (localStorage w) ∧
  localStorage (snd (signOut (snd (signOut w)))) =
    localStorage (snd (signOut w)) ∧
  fst (getSession (snd (signOut w))) = None ∧
  localStorage (snd (getSession (snd (signOut w)))) =
    localStorage (snd (signOut w)).
Proof. repeat split. Qed.

(** X2. The session of a successful [signIn] whose expiry computation
    read the clock at [T] is returned by the next [getSession] exactly
    when that call reads a time of at most [T] plus 24 hours; read any
    later, it is removed, and then no later [getSession] returns it,
    even if the clock were to go back. *)
Theorem signIn_session_lifetime w e pw :
  has_email e w →
  ∃ u s w1,
    signIn e pw w = (SignInOk u s, w1) ∧
    (fst (getSession w1) = Some s ↔ clock w 2 ≤ clock w 1 + day_ms) ∧
    (clock w 1 + day_ms < clock w 2 →
       fst (getSession w1) = None ∧
       session (snd (getSession w1)) = None ∧
       fst (getSession (snd (getSession w1))) = None).
Proof.
  intros Hhas. apply find_by_email_is_Some in Hhas as [u Hf].
  pose proof (signIn_known_world w e pw u Hf) as Hrun. cbv zeta in Hrun.
  eexists u, _, _. split; [exact Hrun|].
  run_M. cbn [expires_at].
  destruct (Z.ltb_spec (clock w 1 + day_ms) (clock w 2)) as [Hlt|Hle]; cbn.
  - split; [split; [done | intros; exfalso; lia] | done].
  - split; [split; [done | done] | intros; exfalso; lia].
Qed.

Lemma signIn_session_lifetime_witness :
  let w := frozen {| mock_users := Some [alice]; mock_session := None |} 7 in
  has_email "a@x.com" w ∧
  ∃ u s w1,
    signIn "a@x.com" "pw" w = (SignInOk u s, w1) ∧
    (fst (getSession w1) = Some s ↔ clock w 2 ≤ clock w 1 + day_ms) ∧
    (clock w 1 + day_ms < clock w 2 →
       fst (getSession w1) = None ∧
       session (snd (getSession w1)) = None ∧
       fst (getSession (snd (getSession w1))) = None).
Proof.
  intros w.
  assert (Hhas : has_email "a@x.com" w).
  { exists alice. split; [left | reflexivity]. }
  split; [exact Hhas|].
  exact (signIn_session_lifetime w "a@x.com" "pw" Hhas).
Defined.

(** X3. Sign-up with an e-mail no stored user has, then sign-in with
    that e-mail and any password, then [getSession] read no later than
    the expiry instant: the session returned is the one of the new user,
    with the e-mail and names given at sign-up and the role given there,
    [employee] if none was; it expires 24 hours after the sign-in, and
    it is what the store holds. *)
Theorem signUp_signIn_getSession w e pw pw' ud :
  (∀ u, u ∈ users w → email u ≠ e) →
  clock w 3 ≤ clock w 2 + day_ms →
  ∃ s w',
    (_ ← signUp e pw ud; _ ← signIn e pw'; getSession) w = (Some s, w') ∧
    email (user s) = e ∧
    first_name (user s) = ud_first_name ud ∧
    last_name (user s) = ud_last_name ud ∧
    role (user s) = Js.or_else (ud_role ud) "employee" ∧
    expires_at s = clock w 2 + day_ms ∧
    session w' = Some s ∧
    users w' = (users w ++ [user s])%list.
Proof.
  intros Hfresh Hlive. apply no_user_with_email in Hfresh.
  pose proof (signUp_fresh_world w e pw ud Hfresh) as Hup.
  cbv zeta in Hup.
  rewrite bind_run, Hup. cbn [fst snd].
  match type of Hup with _ = (SignUpUser ?u0, ?w0) =>
    assert (Hf : find_by_email e (users w0) = Some u0)
      by (apply find_by_email_snoc_fresh; done);
    pose proof (signIn_known_world w0 e pw' u0 Hf) as Hin end.
  cbv zeta in Hin. rewrite bind_run, Hin. cbn [fst snd].
  run_M. cbn [expires_at].
  apply Z.ltb_ge in Hlive. rewrite Hlive.
  by eexists _, _.
Qed.

Lemma signUp_signIn_getSession_witness :
  let w := frozen empty_storage 42 in
  (∀ u, u ∈ users w → email u ≠ "a@x.com") ∧
  clock w 3 ≤ clock w 2 + day_ms ∧
  ∃ s w',
    (_ ← signUp "a@x.com" "pw" carol_data; _ ← signIn "a@x.com" "anything";
     getSession) w = (Some s, w') ∧
    email (user s) = "a@x.com" ∧
    first_name (user s) = ud_first_name carol_data ∧
    last_name (user s) = ud_last_name carol_data ∧
    role (user s) = Js.or_else (ud_role carol_data) "employee" ∧
    expires_at s = clock w 2 + day_ms ∧
    session w' = Some s ∧
    users w' = (users w ++ [user s])%list.
Proof.
  intros w.
  assert (Hfresh : ∀ u, u ∈ users w → email u ≠ "a@x.com").
  { intros u Hu. by apply not_elem_of_nil in Hu. }
  assert (Hlive : clock w 3 ≤ clock w 2 + day_ms) by (by vm_compute).
  split; [exact Hfresh|]. split; [exact Hlive|].
  exact (signUp_signIn_getSession w "a@x.com" "pw" "anything" carol_data
           Hfresh Hlive).
Defined.

(** X4. A second [signUp] with an e-mail just used in a [signUp] is
    rejected with [UserAlreadyExists], whatever password and user data
    it brings and whether or not the first one succeeded, and it leaves
    the store as the first one left it. *)
Theorem signUp_again_rejected w e pw ud pw' ud' :
  fst (signUp e pw' ud' (snd (signUp e pw ud w))) =
    SignUpError UserAlreadyExists ∧
  localStorage (snd (signUp e pw' ud' (snd (signUp e pw ud w)))) =
    localStorage (snd (signUp e pw ud w)).
Proof.
  destruct (signUp_ensures_email w e pw ud) as [Hsome _].
  by rewrite (signUp_taken _ e pw' ud' Hsome).
Qed.

End Lifecycle.

(** ** What no sequence of calls can do *)

Section Invariants.

Implicit Types (w : World) (e pw : string) (ud : UserData).

Lemma step_same_storage w w' : localStorage w' = localStorage w → step w w'.
Proof.
  intros Hst. split.
  - exists []. split; [|split].
    + unfold users, getStoredUsers. cbn. rewrite Hst. by rewrite app_nil_r.
    + constructor.
    + intros u x Hu. by apply not_elem_of_nil in Hu.
  - left. unfold session, getStoredSession. cbn. by rewrite Hst.
Qed.

Lemma step_refl w : step w w.
Proof. by apply step_same_storage. Qed.

Lemma step_trans w1 w2 w3 : step w1 w2 → step w2 w3 → step w1 w3.
Proof.
  intros [(a1 & Hu1 & Hnd1 & Hfresh1) Hs1] [(a2 & Hu2 & Hnd2 & Hfresh2) Hs2].
  split.
  - exists (a1 ++ a2)%list. split; [|split].
    + by rewrite Hu2, Hu1, app_assoc.
    + rewrite fmap_app. apply NoDup_app. split; [done|]. split; [|done].
      intros m Hm1 Hm2.
      apply list_elem_of_fmap in Hm1 as (x & -> & Hx).
      apply list_elem_of_fmap in Hm2 as (u & Heq & Hu).
      apply (Hfresh2 u x Hu); [|done].
      rewrite Hu1. apply elem_of_app. by right.
    + intros u x Hu Hx. apply elem_of_app in Hu as [Hu|Hu].
      * by apply Hfresh1.
      * apply Hfresh2; [done|]. rewrite Hu1. apply elem_of_app. by left.
  - destruct Hs2 as [Heq | [Hnone | Hsome]].
    + destruct Hs1 as [Heq1 | [Hnone1 | (s & Hs & Hin)]].
      * left. by rewrite Heq.
      * right. left. by rewrite Heq.
      * right. right. exists s. split; [by rewrite Heq|].
        rewrite Hu2. apply elem_of_app. by left.
    + right. by left.
    + right. by right.
Qed.

Lemma signUp_is_step w e pw ud : step w (snd (signUp e pw ud w)).
Proof.
  destruct (signUp_step w e pw ud) as [Hsame | (u & Hu & Hfresh & Hus & Hss)].
  - by apply step_same_storage.
  - split; [|by left]. exists [u]. split; [done|]. split.
    + cbn. apply NoDup_singleton.
    + intros v x Hv Hx. apply list_elem_of_singleton in Hv as ->.
      rewrite Hu. by apply Hfresh.
Qed.

Lemma signIn_is_step w e pw : step w (snd (signIn e pw w)).
Proof.
  destruct (signIn_step w e pw) as [Hus Hss]. split.
  - exists []. split; [by rewrite Hus, app_nil_r|]. split; [constructor|].
    intros u x Hu. by apply not_elem_of_nil in Hu.
  - destruct Hss as [Heq | (s & Hs & Hin)]; [by left|].
    right. right. exists s. by rewrite Hus.
Qed.

Lemma signOut_is_step w : step w (snd (signOut w)).
Proof.
  split; [|right; by left].
  exists []. split; [by rewrite app_nil_r|]. split; [constructor|].
  intros u x Hu. by apply not_elem_of_nil in Hu.
Qed.

Lemma getSession_is_step w : step w (snd (getSession w)).
Proof.
  destruct (getSession_step w) as [Hus Hss]. split.
  - exists []. split; [by rewrite Hus, app_nil_r|]. split; [constructor|].
    intros u x Hu. by apply not_elem_of_nil in Hu.
  - destruct Hss; [by left | right; by left].
Qed.

Lemma for_of_is_step {A} (body : A → M unit) (l : list A) :
  (∀ x w, step w (snd (body x w))) → ∀ w, step w (snd (for_of l body w)).
Proof.
  intros Hbody. induction l as [|x l IH]; intros w.
  - apply step_refl.
  - cbn [for_of]. rewrite bind_run.
    eapply step_trans; [apply (Hbody x w) | apply IH].
Qed.

Lemma createDemoUser_is_step existing d w :
  step w (snd (createDemoUser existing d w)).
Proof.
  unfold createDemoUser.
  destruct (find_by_email (demo_email d) existing); [apply step_refl|].
  rewrite bind_run. cbn [snd mret M_ret]. apply signUp_is_step.
Qed.

Lemma createDemoUsers_is_step w : step w (snd (createDemoUsers w)).
Proof.
  unfold createDemoUsers. rewrite bind_run.
  change (snd (getStoredUsers w)) with w.
  apply for_of_is_step. intros d w'. apply createDemoUser_is_step.
Qed.

Lemma call_is_step c w : step w (snd (call c w)).
Proof.
  destruct c as [e pw ud | e pw | | |]; cbn [call].
  - rewrite bind_run. apply signUp_is_step.
  - rewrite bind_run. apply signIn_is_step.
  - apply signOut_is_step.
  - rewrite bind_run. apply getSession_is_step.
  - apply createDemoUsers_is_step.
Qed.

Lemma calls_is_step cs w : step w (snd (calls cs w)).
Proof. apply for_of_is_step. intros c w'. apply call_is_step. Qed.

(** X5. No sequence of calls removes or alters a stored user: the user
    list before is a prefix of the user list after, so every position
    keeps the record it held. *)
Theorem calls_only_append_users cs w :
  users w `prefix_of` users (snd (calls cs w)) ∧
  ∀ i u, users w !! i = Some u → users (snd (calls cs w)) !! i = Some u.
Proof.
  destruct (calls_is_step cs w) as [(added & Hus & _) _].
  rewrite Hus. split; [by exists added|].
  intros i u Hi. by apply lookup_app_l_Some.
Qed.

(** X6. If no two stored users share an e-mail, then after any sequence
    of calls no two stored users share an e-mail. *)
Theorem calls_keep_emails_unique cs w :
  emails_unique w → emails_unique (snd (calls cs w)).
Proof.
  unfold emails_unique.
  destruct (calls_is_step cs w) as [(added & Hus & Hnd & Hfresh) _].
  intros Huniq. rewrite Hus, fmap_app. apply NoDup_app.
  split; [done|]. split; [|done].
  intros m Hm1 Hm2.
  apply list_elem_of_fmap in Hm1 as (x & -> & Hx).
  apply list_elem_of_fmap in Hm2 as (u & Heq & Hu).
  by apply (Hfresh u x Hu Hx).
Qed.

Lemma calls_keep_emails_unique_witness :
  let w := frozen {| mock_users := Some [alice]; mock_session := None |} 9 in
  emails_unique w ∧ emails_unique (snd (calls sample_calls w)).
Proof.
  intros w.
  assert (Huniq : emails_unique w).
  { unfold emails_unique. cbn. apply NoDup_singleton. }
  split; [exact Huniq|].
  exact (calls_keep_emails_unique sample_calls w Huniq).
Defined.

(** X7. If the stored session, when there is one, is the session of a
    stored user, then the same holds after any sequence of calls. *)
Theorem calls_keep_session_user_stored cs w :
  session_user_stored w → session_user_stored (snd (calls cs w)).
Proof.
  unfold session_user_stored.
  destruct (calls_is_step cs w) as [(added & Hus & _) Hss].
  intros Hinv s Hs.
  destruct Hss as [Heq | [Hnone | (s' & Hs' & Hin)]].
  - rewrite Hus. apply elem_of_app. left. apply Hinv. by rewrite <- Heq.
  - by rewrite Hnone in Hs.
  - rewrite Hs' in Hs. by injection Hs as <-.
Qed.

Lemma calls_keep_session_user_stored_witness :
  let w := frozen {| mock_users := Some [alice];
                     mock_session := Some (alice_session 10) |} 9 in
  session_user_stored w ∧ session_user_stored (snd (calls sample_calls w)).
Proof.
  intros w.
  assert (Hinv : session_user_stored w).
  { intros s [= <-]. by left. }
  split; [exact Hinv|].
  exact (calls_keep_session_user_stored sample_calls w Hinv).
Defined.

End Invariants.

(** ** Demo accounts on any store *)

Section DemoUsersAnyStore.

Implicit Types (w : World).

Lemma createDemoUser_growth existing d w :
  session (snd (createDemoUser existing d w)) = session w ∧
  ∃ added,
    users (snd (createDemoUser existing d w)) = (users w ++ added)%list ∧
    (length added ≤ 1)%nat ∧
    ∀ u, u ∈ added → email u = demo_email d.
Proof.
  assert (Hnil : ∀ w', localStorage w' = localStorage w →
            session w' = session w ∧
            ∃ added, users w' = (users w ++ added)%list ∧
                     (length added ≤ 1)%nat ∧
                     ∀ u, u ∈ added → email u = demo_email d).
  { intros w' Hst. unfold session, users, getStoredSession, getStoredUsers.
    cbn. rewrite Hst. split; [done|]. exists []. rewrite app_nil_r.
    split; [done|]. split; [cbn; lia|].
    intros u Hu. by apply not_elem_of_nil in Hu. }
  unfold createDemoUser.
  destruct (find_by_email (demo_email d) existing); [by apply Hnil|].
  rewrite bind_run. cbn [snd mret M_ret].
  match goal with |- context [signUp ?e ?p ?ud w] =>
    destruct (signUp_step w e p ud) as [Hsame | (u & Hu & _ & Hus & Hss)] end.
  - by apply Hnil.
  - split; [done|]. exists [u]. split; [done|]. split; [cbn; lia|].
    intros v Hv. by apply list_elem_of_singleton in Hv as ->.
Qed.

Lemma for_of_createDemoUser_growth existing ds w :
  session (snd (for_of ds (createDemoUser existing) w)) = session w ∧
  ∃ added,
    users (snd (for_of ds (createDemoUser existing) w)) =
      (users w ++ added)%list ∧
    (length added ≤ length ds)%nat ∧
    ∀ u, u ∈ added → email u ∈ demo_email <$> ds.
Proof.
  revert w. induction ds as [|d ds IH]; intros w.
  - cbn. split; [done|]. exists []. rewrite app_nil_r. split; [done|].
    split; [done|]. intros u Hu. by apply not_elem_of_nil in Hu.
  - cbn [for_of]. rewrite bind_run.
    destruct (createDemoUser_growth existing d w)
      as (Hs1 & a1 & Hu1 & Hlen1 & Hmail1).
    destruct (IH (snd (createDemoUser existing d w)))
      as (Hs2 & a2 & Hu2 & Hlen2 & Hmail2).
    split; [by rewrite Hs2|].
    exists (a1 ++ a2)%list. split; [by rewrite Hu2, Hu1, app_assoc|].
    split; [rewrite length_app; cbn; lia|].
    intros u Hu. rewrite fmap_cons. apply elem_of_cons.
    apply elem_of_app in Hu as [Hu|Hu].
    + left. by apply Hmail1.
    + right. by apply Hmail2.
Qed.

(** X8. On every store, a run of [createDemoUsers] leaves the session
    slot as it was and the stored users in place; what it appends is at
    most three users, each with the e-mail of a demo identity that no
    stored user had before. *)
Theorem createDemoUsers_appends_missing_demo_users w :
  session (snd (createDemoUsers w)) = session w ∧
  ∃ added,
    users (snd (createDemoUsers w)) = (users w ++ added)%list ∧
    (length added ≤ 3)%nat ∧
    ∀ u, u ∈ added →
      email u ∈ demo_emails ∧ ∀ x, x ∈ users w → email x ≠ email u.
Proof.
  destruct (createDemoUsers_is_step w) as [(added' & Hus' & _ & Hfresh) _].
  unfold createDemoUsers in *. rewrite bind_run in *.
  change (snd (getStoredUsers w)) with w in *.
  change (fst (getStoredUsers w)) with (users w) in *.
  destruct (for_of_createDemoUser_growth (users w) demoUsers w)
    as (Hs & added & Hus & Hlen & Hmail).
  split; [done|]. exists added. split; [done|]. split; [done|].
  intros u Hu. split; [by apply Hmail|].
  intros x Hx. apply Hfresh; [|done].
  rewrite Hus in Hus'. by apply app_inv_head in Hus' as <-.
Qed.

(** X9. On every store, after one run of [createDemoUsers] each of the
    three demo e-mails belongs to a stored user, and a second run
    returns the world as it got it: nothing is written and no clock or
    random value is consumed. *)
Theorem createDemoUsers_second_run_is_noop w :
  (∀ e, e ∈ demo_emails → has_email e (snd (createDemoUsers w))) ∧
  createDemoUsers (snd (createDemoUsers w)) = (tt, snd (createDemoUsers w)).
Proof.
  split.
  - intros e He. apply list_elem_of_fmap in He as (d & -> & Hd).
    destruct (createDemoUsers_ensures_all w d Hd) as [u Hu].
    exists u. by apply find_by_email_Some.
  - apply createDemoUsers_skips_present. intros d Hd.
    by apply createDemoUsers_ensures_all.
Qed.

End DemoUsersAnyStore.

(** ** Leave policies outside the prototype *)

Section LeavePoliciesMore.

(** X10. For a key that is not a member name of [Object.prototype],
    [getLeavePolicy] gives a policy record: the entry of the table for
    the key when the key is one of the five leave types, the [other]
    entry when it is not. Whatever the record, its annual quota is not
    negative and its maximum of consecutive days is at least one. *)
Theorem getLeavePolicy_outside_prototype k :
  Js.inherited k = false →
  ∃ p, getLeavePolicy k = Some (Entry p) ∧
       (k ∈ leave_types → policies !! k = Some p) ∧
       (k ∉ leave_types → p = other_policy) ∧
       0 ≤ annual_quota p ∧ 1 ≤ max_consecutive_days p.
Proof.
  intros Hproto. destruct (decide (k ∈ leave_types)) as [Hin|Hout].
  - destruct (getLeavePolicy_known k Hin) as [[p Hp] Hget].
    exists p. rewrite Hget, Hp. split; [done|]. split; [done|].
    split; [done|]. unfold leave_types in Hin.
    repeat (apply elem_of_cons in Hin as [->|Hin];
            [vm_compute in Hp; injection Hp as <-; cbn; lia|]).
    by apply not_elem_of_nil in Hin.
  - exists other_policy. rewrite (getLeavePolicy_unknown k Hout Hproto).
    split; [done|]. split; [done|]. split; [done|]. cbn. lia.
Qed.

Lemma getLeavePolicy_outside_prototype_witness :
  Js.inherited "maternity" = false ∧
  ∃ p, getLeavePolicy "maternity" = Some (Entry p) ∧
       ("maternity" ∈ leave_types → policies !! "maternity" = Some p) ∧
       ("maternity" ∉ leave_types → p = other_policy) ∧
       0 ≤ annual_quota p ∧ 1 ≤ max_consecutive_days p.
Proof.
  split; [reflexivity|].
  exact (getLeavePolicy_outside_prototype "maternity" eq_refl).
Defined.

End LeavePoliciesMore.

(** ** The session coordinator: sign-in, sign-up, sign-out *)

Section Coordinator.

Implicit Types (w : World) (e pw : string) (ud : UserData)
  (s : AuthContext.State) (r : AuthContext.AuthTokenResponse).

Lemma primary_signed_in_dec r :
  primary_signed_in r ∨
  (AuthContext.auth_error r ≠ None ∨ AuthContext.data_user r = None).
Proof.
  unfold primary_signed_in.
  destruct (AuthContext.auth_error r), (AuthContext.data_user r);
    (by left) || (right; (by left) || (by right)).
Qed.

(** What [signIn] does once the primary provider has not signed the
    user in. *)
Lemma coordinator_signIn_fallback r e pw s w :
  ¬ primary_signed_in r →
  AuthContext.signIn (AuthContext.Resolved r) e pw s w =
    (let mockResult := fst (MockAuth.signIn e pw w) in
     match mockResult with
     | SignInOk u ms =>
         (AuthContext.NoError,
          AuthContext.setMockIdentity u ms (AuthContext.setIsMockMode true s))
     | SignInError err => (AuthContext.FromMock err, s)
     end, snd (MockAuth.signIn e pw w)).
Proof.
  intros Hno. unfold AuthContext.signIn, primary_signed_in in *.
  destruct (AuthContext.auth_error r) as [msg|] eqn:Herr,
           (AuthContext.data_user r) as [u0|] eqn:Hdu.
  4: { rewrite bind_run. by destruct (MockAuth.signIn e pw w) as [[] ?]. }
  3: { exfalso. apply Hno. split; [done | by eexists]. }
  all: rewrite bind_run; by destruct (MockAuth.signIn e pw w) as [[] ?].
Qed.

(** X11. [signIn] of the coordinator reports no error exactly when the
    primary provider signed the user in or a stored user has the e-mail.
    When it reports an error after a response of the primary provider,
    the error is the fallback's [InvalidCredentials], never the primary
    provider's, and neither the coordinator's state nor the store has
    changed. When the primary provider has signed the user in, the
    fallback is not touched: state and world are as they were. *)
Theorem coordinator_signIn_error_iff r e pw s w :
  (fst (fst (AuthContext.signIn (AuthContext.Resolved r) e pw s w)) =
     AuthContext.NoError ↔ primary_signed_in r ∨ has_email e w) ∧
  (fst (fst (AuthContext.signIn (AuthContext.Resolved r) e pw s w)) ≠
     AuthContext.NoError →
   AuthContext.signIn (AuthContext.Resolved r) e pw s w =
     (AuthContext.FromMock InvalidCredentials, s, w)) ∧
  (primary_signed_in r →
   AuthContext.signIn (AuthContext.Resolved r) e pw s w =
     (AuthContext.NoError, s, w)).
Proof.
  assert (Hok : primary_signed_in r →
                AuthContext.signIn (AuthContext.Resolved r) e pw s w =
                  (AuthContext.NoError, s, w)).
  { intros [Herr [u Hu]]. unfold AuthContext.signIn. by rewrite Herr, Hu. }
  destruct (primary_signed_in_dec r) as [Hin|Hout].
  - rewrite (Hok Hin). cbn [fst]. split; [split; [by left | done]|].
    split; [done | done].
  - assert (Hno : ¬ primary_signed_in r).
    { intros [Herr [u Hu]]. destruct Hout as [H|H]; congruence. }
    rewrite (coordinator_signIn_fallback r e pw s w Hno). cbv zeta.
    destruct (find_by_email e (users w)) as [u|] eqn:Hf.
    + destruct (signIn_known w e pw u Hf) as (ms & w' & Hrun & _).
      rewrite Hrun. cbn [fst snd]. split; [|split; [done | done]].
      split; [|done]. intros _. right. exists u.
      by apply find_by_email_Some.
    + rewrite (signIn_unknown w e pw Hf). cbn [fst snd].
      split; [|split; [done | done]].
      split; [done|]. intros [Hin | Hhas]; [done|].
      apply find_by_email_is_Some in Hhas. rewrite Hf in Hhas.
      by destruct Hhas.
Qed.

(** X12. When the primary provider answers without signing the user in
    and a stored user has the e-mail, [signIn] of the coordinator
    succeeds through the fallback, for any password: it switches to
    mock mode and sets the user, the session and the profile from the
    first stored user with that e-mail, and the store then holds the
    session that the state holds. A call to the primary provider that
    throws instead is reported as the error, and the fallback is not
    tried. *)
Theorem coordinator_signIn_falls_back r e pw s w :
  ¬ primary_signed_in r → has_email e w →
  ∃ u ms w',
    AuthContext.signIn (AuthContext.Resolved r) e pw s w =
      (AuthContext.NoError,
       {| AuthContext.user := Some (AuthContext.OfMock u);
          AuthContext.session := Some (AuthContext.MockSession ms);
          AuthContext.profile := Some (AuthContext.profileOfMock u);
          AuthContext.loading := AuthContext.loading s;
          AuthContext.isMockMode := true |}, w') ∧
    find_by_email e (users w) = Some u ∧
    email u = e ∧
    user ms = u ∧
    session w' = Some ms ∧
    users w' = users w ∧
    ∀ reason, AuthContext.signIn (AuthContext.Rejected reason) e pw s w =
                (AuthContext.Caught reason, s, w).
Proof.
  intros Hno Hhas. apply find_by_email_is_Some in Hhas as [u Hf].
  rewrite (coordinator_signIn_fallback r e pw s w Hno). cbv zeta.
  pose proof (signIn_known_world w e pw u Hf) as Hrun. cbv zeta in Hrun.
  rewrite Hrun. cbn [fst snd].
  eexists u, _, _. split; [reflexivity|].
  split; [done|]. split; [by destruct (find_by_email_Some _ _ _ Hf)|].
  by repeat split.
Qed.

Lemma coordinator_signIn_falls_back_witness :
  let w := frozen {| mock_users := Some [alice]; mock_session := None |} 7 in
  ¬ primary_signed_in primary_refusal ∧ has_email "a@x.com" w ∧
  ∃ u ms w',
    AuthContext.signIn (AuthContext.Resolved primary_refusal)
      "a@x.com" "pw" AuthContext.initial w =
      (AuthContext.NoError,
       {| AuthContext.user := Some (AuthContext.OfMock u);
          AuthContext.session := Some (AuthContext.MockSession ms);
          AuthContext.profile := Some (AuthContext.profileOfMock u);
          AuthContext.loading := AuthContext.loading AuthContext.initial;
          AuthContext.isMockMode := true |}, w') ∧
    find_by_email "a@x.com" (users w) = Some u ∧
    email u = "a@x.com" ∧
    user ms = u ∧
    session w' = Some ms ∧
    users w' = users w ∧
    ∀ reason, AuthContext.signIn (AuthContext.Rejected reason)
                "a@x.com" "pw" AuthContext.initial w =
                (AuthContext.Caught reason, AuthContext.initial, w).
Proof.
  intros w.
  assert (Hno : ¬ primary_signed_in primary_refusal).
  { intros [Herr _]. discriminate Herr. }
  assert (Hhas : has_email "a@x.com" w).
  { exists alice. split; [left | reflexivity]. }
  split; [exact Hno|]. split; [exact Hhas|].
  exact (coordinator_signIn_falls_back primary_refusal "a@x.com" "pw"
           AuthContext.initial w Hno Hhas).
Defined.

(** X13. [signUp] of the coordinator with an e-mail no stored user has
    reports no error and leaves the user signed in through the
    fallback: mock mode is on; user, session and profile are those of
    the new user, whose profile carries the e-mail and names given and
    the role given, [employee] if none was; the store has the new user
    at the end of its list and holds the session, which expires 24
    hours after the sign-in's reading of the clock. *)
Theorem coordinator_signUp_signs_in w e pw ud s :
  (∀ u, u ∈ users w → email u ≠ e) →
  ∃ u ms w',
    AuthContext.signUp e pw ud s w =
      (AuthContext.NoError,
       {| AuthContext.user := Some (AuthContext.OfMock u);
          AuthContext.session := Some (AuthContext.MockSession ms);
          AuthContext.profile :=
            Some {| AuthContext.id := id u;
                    AuthContext.email := e;
                    AuthContext.first_name := ud_first_name ud;
                    AuthContext.last_name := ud_last_name ud;
                    AuthContext.role := Js.or_else (ud_role ud) "employee";
                    AuthContext.manager_id := None;
                    AuthContext.department := None |};
          AuthContext.loading := AuthContext.loading s;
          AuthContext.isMockMode := true |}, w') ∧
    users w' = (users w ++ [u])%list ∧
    session w' = Some ms ∧
    user ms = u ∧
    expires_at ms = clock w 2 + day_ms.
Proof.
  intros Hfresh. apply no_user_with_email in Hfresh.
  pose proof (signUp_fresh_world w e pw ud Hfresh) as Hup.
  cbv zeta in Hup. unfold AuthContext.signUp.
  rewrite bind_run, Hup. cbn [fst snd AuthContext.signUp_user].
  match type of Hup with _ = (SignUpUser ?u0, ?w0) =>
    assert (Hf : find_by_email e (users w0) = Some u0)
      by (apply find_by_email_snoc_fresh; done);
    pose proof (signIn_known_world w0 e pw u0 Hf) as Hin end.
  cbv zeta in Hin. rewrite bind_run, Hin.
  cbn [fst snd AuthContext.signIn_user AuthContext.signIn_session].
  eexists _, _, _. split; [reflexivity|]. by repeat split.
Qed.

Lemma coordinator_signUp_signs_in_witness :
  let w := frozen {| mock_users := Some [alice]; mock_session := None |} 7 in
  (∀ u, u ∈ users w → email u ≠ "c@x.com") ∧
  ∃ u ms w',
    AuthContext.signUp "c@x.com" "pw" carol_data AuthContext.initial w =
      (AuthContext.NoError,
       {| AuthContext.user := Some (AuthContext.OfMock u);
          AuthContext.session := Some (AuthContext.MockSession ms);
          AuthContext.profile :=
            Some {| AuthContext.id := id u;
                    AuthContext.email := "c@x.com";
                    AuthContext.first_name := ud_first_name carol_data;
                    AuthContext.last_name := ud_last_name carol_data;
                    AuthContext.role :=
                      Js.or_else (ud_role carol_data) "employee";
                    AuthContext.manager_id := None;
                    AuthContext.department := None |};
          AuthContext.loading := AuthContext.loading AuthContext.initial;
          AuthContext.isMockMode := true |}, w') ∧
    users w' = (users w ++ [u])%list ∧
    session w' = Some ms ∧
    user ms = u ∧
    expires_at ms = clock w 2 + day_ms.
Proof.
  intros w.
  assert (Hfresh : ∀ u, u ∈ users w → email u ≠ "c@x.com").
  { intros u Hu. apply list_elem_of_singleton in Hu. subst u. discriminate. }
  split; [exact Hfresh|].
  exact (coordinator_signUp_signs_in w "c@x.com" "pw" carol_data
           AuthContext.initial Hfresh).
Defined.

(** X14. [signUp] of the coordinator with an e-mail a stored user has
    reports the fallback's [UserAlreadyExists] error; the coordinator's
    state and the world are as they were: nobody is signed in by it. *)
Theorem coordinator_signUp_duplicate w e pw ud s :
  has_email e w →
  AuthContext.signUp e pw ud s w =
    (AuthContext.FromMock UserAlreadyExists, s, w).
Proof.
  intros Hhas. apply find_by_email_is_Some in Hhas.
  unfold AuthContext.signUp. rewrite bind_run.
  by rewrite (signUp_taken w e pw ud Hhas).
Qed.

Lemma coordinator_signUp_duplicate_witness :
  let w := frozen {| mock_users := Some [alice]; mock_session := None |} 7 in
  has_email "a@x.com" w ∧
  AuthContext.signUp "a@x.com" "pw" carol_data AuthContext.initial w =
    (AuthContext.FromMock UserAlreadyExists, AuthContext.initial, w).
Proof.
  intros w.
  assert (Hhas : has_email "a@x.com" w).
  { exists alice. split; [left | reflexivity]. }
  split; [exact Hhas|].
  exact (coordinator_signUp_duplicate w "a@x.com" "pw" carol_data
           AuthContext.initial Hhas).
Defined.

End Coordinator.

(** ** The session coordinator: start-up, reload and sign-out *)

Section Reload.

Implicit Types (w : World) (e pw : string) (ud : UserData)
  (s : AuthContext.State).

(** The clock after a run is the clock before it, some readings on. *)
Lemma signUp_clock w e pw ud :
  ∃ k, ∀ n, clock (snd (signUp e pw ud w)) n = clock w (k + n)%nat.
Proof.
  destruct (find_by_email e (users w)) as [u|] eqn:Hf.
  - exists 0%nat. by rewrite signUp_taken by (by eexists).
  - exists 1%nat. by rewrite (signUp_fresh_world w e pw ud Hf).
Qed.

Lemma for_of_createDemoUser_clock existing ds w :
  ∃ k, ∀ n, clock (snd (for_of ds (createDemoUser existing) w)) n =
            clock w (k + n)%nat.
Proof.
  revert w. induction ds as [|d ds IH]; intros w.
  - by exists 0%nat.
  - cbn [for_of]. rewrite bind_run.
    assert (∃ k, ∀ n, clock (snd (createDemoUser existing d w)) n =
                      clock w (k + n)%nat) as [k1 Hk1].
    { unfold createDemoUser.
      destruct (find_by_email (demo_email d) existing); [by exists 0%nat|].
      rewrite bind_run. cbn [snd mret M_ret]. apply signUp_clock. }
    destruct (IH (snd (createDemoUser existing d w))) as [k2 Hk2].
    exists (k1 + k2)%nat. intros n. rewrite Hk2, Hk1. f_equal. lia.
Qed.

Lemma createDemoUsers_keeps_session w :
  session (snd (createDemoUsers w)) = session w ∧
  ∃ k, ∀ n, clock (snd (createDemoUsers w)) n = clock w (k + n)%nat.
Proof.
  unfold createDemoUsers. rewrite bind_run.
  change (snd (getStoredUsers w)) with w.
  split.
  - apply for_of_createDemoUser_growth.
  - apply for_of_createDemoUser_clock.
Qed.

(** Start-up when the store holds a session that the clock finds
    valid. *)
Lemma initializeAuth_with_live_session remote fetched s w ms :
  session w = Some ms →
  (∀ n, clock w n ≤ expires_at ms) →
  fst (AuthContext.initializeAuth remote fetched s w) =
    {| AuthContext.user := Some (AuthContext.OfMock (user ms));
       AuthContext.session := Some (AuthContext.MockSession ms);
       AuthContext.profile := Some (AuthContext.profileOfMock (user ms));
       AuthContext.loading := false;
       AuthContext.isMockMode := true |}.
Proof.
  intros Hs Hlive. unfold AuthContext.initializeAuth.
  rewrite bind_run.
  destruct (createDemoUsers_keeps_session w) as [Hs1 [k Hk]].
  assert (Hle : clock (snd (createDemoUsers w)) 0 ≤ expires_at ms).
  { rewrite Hk. apply Hlive. }
  rewrite Hs in Hs1.
  destruct (getSession_live _ ms Hs1 Hle) as (w2 & Hrun & _).
  rewrite bind_run, Hrun. reflexivity.
Qed.

(** X15. After a [signUp] of the coordinator with a new e-mail, a
    reload (start-up from the initial state on the world the sign-up
    left) signs the same user in again through the fallback, whatever
    the primary provider answers, as long as the clock stays at or
    before the expiry instant of the session: mock mode is on, loading
    is over, and user, session and profile are those the sign-up had
    set. *)
Theorem reload_restores_mock_identity w e pw ud s remote fetched :
  (∀ u, u ∈ users w → email u ≠ e) →
  (∀ n, clock w n ≤ clock w 2 + day_ms) →
  let after_signUp := AuthContext.signUp e pw ud s w in
  let reloaded :=
    fst (AuthContext.initializeAuth remote fetched AuthContext.initial
           (snd after_signUp)) in
  AuthContext.isMockMode reloaded = true ∧
  AuthContext.loading reloaded = false ∧
  is_Some (AuthContext.user reloaded) ∧
  AuthContext.user reloaded = AuthContext.user (snd (fst after_signUp)) ∧
  AuthContext.session reloaded = AuthContext.session (snd (fst after_signUp)) ∧
  AuthContext.profile reloaded = AuthContext.profile (snd (fst after_signUp)).
Proof.
  intros Hfresh Hlive after_signUp reloaded.
  apply no_user_with_email in Hfresh.
  pose proof (signUp_fresh_world w e pw ud Hfresh) as Hup.
  cbv zeta in Hup.
  assert (Hrun : ∃ u ms w',
            after_signUp =
              (AuthContext.NoError,
               AuthContext.setMockIdentity u ms
                 (AuthContext.setIsMockMode true s), w') ∧
            user ms = u ∧ session w' = Some ms ∧
            expires_at ms = clock w 2 + day_ms ∧
            ∀ n, clock w' n = clock w (3 + n)%nat).
  { subst after_signUp. unfold AuthContext.signUp.
    rewrite bind_run, Hup. cbn [fst snd AuthContext.signUp_user].
    match type of Hup with _ = (SignUpUser ?u0, ?w0) =>
      assert (Hf : find_by_email e (users w0) = Some u0)
        by (apply find_by_email_snoc_fresh; done);
      pose proof (signIn_known_world w0 e pw u0 Hf) as Hin end.
    cbv zeta in Hin. rewrite bind_run, Hin.
    cbn [fst snd AuthContext.signIn_user AuthContext.signIn_session].
    eexists _, _, _. split; [reflexivity|]. by repeat split. }
  destruct Hrun as (u & ms & w' & Hrun & Hu & Hs & Hexp & Hclock).
  subst reloaded. rewrite Hrun. cbn [fst snd].
  rewrite (initializeAuth_with_live_session remote fetched _ w' ms Hs).
  - rewrite Hu. cbn. by repeat split.
  - intros n. rewrite Hclock, Hexp. apply Hlive.
Qed.

Lemma reload_restores_mock_identity_witness :
  let w := frozen empty_storage 42 in
  let after_signUp :=
    AuthContext.signUp "c@x.com" "pw" carol_data AuthContext.initial w in
  let reloaded :=
    fst (AuthContext.initializeAuth
           (AuthContext.Resolved (Some bare_session))
           (AuthContext.Rejected "TypeError: Failed to fetch")
           AuthContext.initial (snd after_signUp)) in
  (∀ u, u ∈ users w → email u ≠ "c@x.com") ∧
  (∀ n, clock w n ≤ clock w 2 + day_ms) ∧
  AuthContext.isMockMode reloaded = true ∧
  AuthContext.loading reloaded = false ∧
  is_Some (AuthContext.user reloaded) ∧
  AuthContext.user reloaded = AuthContext.user (snd (fst after_signUp)) ∧
  AuthContext.session reloaded = AuthContext.session (snd (fst after_signUp)) ∧
  AuthContext.profile reloaded = AuthContext.profile (snd (fst after_signUp)).
Proof.
  intros w after_signUp reloaded.
  assert (Hfresh : ∀ u, u ∈ users w → email u ≠ "c@x.com").
  { intros u Hu. by apply not_elem_of_nil in Hu. }
  assert (Hlive : ∀ n, clock w n ≤ clock w 2 + day_ms).
  { intros n. by vm_compute. }
  split; [exact Hfresh|]. split; [exact Hlive|].
  exact (reload_restores_mock_identity w "c@x.com" "pw" carol_data
           AuthContext.initial _ _ Hfresh Hlive).
Defined.

(** X16. [signOut] of the coordinator in mock mode sends nothing to the
    primary provider, empties the session slot of the store, keeps the
    stored users, and leaves the state with no user, no session, no
    profile and mock mode off; a reload after it, with no session at
    the primary provider, ends anonymous. Outside mock mode [signOut]
    sends the sign-out request to the primary provider and changes
    neither the state nor the store. *)
Theorem coordinator_signOut_routes s w :
  (AuthContext.isMockMode s = true →
     ∃ w',
       AuthContext.signOut s w =
         ([], {| AuthContext.user := None; AuthContext.session := None;
                 AuthContext.profile := None;
                 AuthContext.loading := AuthContext.loading s;
                 AuthContext.isMockMode := false |}, w') ∧
       session w' = None ∧
       users w' = users w ∧
       ∀ fetched,
         fst (AuthContext.initializeAuth (AuthContext.Resolved None) fetched
                AuthContext.initial w') = anonymous) ∧
  (AuthContext.isMockMode s = false →
     AuthContext.signOut s w = ([AuthContext.AuthSignOut], s, w)).
Proof.
  unfold AuthContext.signOut. split; intros ->; [|done].
  eexists. split; [reflexivity|]. split; [reflexivity|].
  split; [reflexivity|]. intros fetched.
  unfold AuthContext.initializeAuth. rewrite bind_run.
  match goal with |- context [createDemoUsers ?w0] =>
    destruct (createDemoUsers_keeps_session w0) as [Hs _];
    change (session w0) with (@None MockSession) in Hs end.
  rewrite bind_run. by rewrite (getSession_absent _ Hs).
Qed.

Lemma coordinator_signOut_routes_witness :
  let w := frozen {| mock_users := Some [alice];
                     mock_session := Some (alice_session 100) |} 7 in
  let s := AuthContext.setIsMockMode true AuthContext.initial in
  AuthContext.isMockMode s = true ∧
  ∃ w',
    AuthContext.signOut s w =
      ([], {| AuthContext.user := None; AuthContext.session := None;
              AuthContext.profile := None;
              AuthContext.loading := AuthContext.loading s;
              AuthContext.isMockMode := false |}, w') ∧
    session w' = None ∧
    users w' = users w ∧
    ∀ fetched,
      fst (AuthContext.initializeAuth (AuthContext.Resolved None) fetched
             AuthContext.initial w') = anonymous.
Proof.
  intros w s. split; [reflexivity|].
  exact (proj1 (coordinator_signOut_routes s w) eq_refl).
Defined.

(** X17. Start-up that finds no valid mock session but a session of the
    primary provider whose profile fetch fails switches mock mode on
    while the user is the primary provider's. A [signOut] from that
    state takes the mock route: it clears the local state and sends no
    sign-out request to the primary provider. *)
Theorem failed_fetch_signOut_skips_primary sess fetched s w :
  fst (MockAuth.getSession (snd (createDemoUsers w))) = None →
  fetch_failed fetched →
  let started :=
    AuthContext.initializeAuth (AuthContext.Resolved (Some sess))
      fetched s w in
  AuthContext.isMockMode (fst started) = true ∧
  AuthContext.user (fst started) =
    Some (AuthContext.OfSupabase (Supabase.user sess)) ∧
  AuthContext.session (fst started) =
    Some (AuthContext.SupabaseSession sess) ∧
  fst (fst (AuthContext.signOut (fst started) (snd started))) = [] ∧
  AuthContext.user (snd (fst (AuthContext.signOut (fst started)
                                (snd started)))) = None.
Proof.
  intros Hmock Hfail started.
  assert (Hst : fst started =
            AuthContext.setLoading false
              (AuthContext.fetchProfileAtStartup (Supabase.user sess) fetched
                 (AuthContext.setUser
                    (Some (AuthContext.OfSupabase (Supabase.user sess)))
                    (AuthContext.setSession
                       (Some (AuthContext.SupabaseSession sess)) s)))).
  { subst started. unfold AuthContext.initializeAuth.
    rewrite !bind_run. by rewrite Hmock. }
  assert (Hmode : AuthContext.isMockMode (fst started) = true).
  { rewrite Hst. by destruct fetched as [[row|err]|reason]. }
  split; [done|].
  split; [rewrite Hst; by destruct fetched as [[row|err]|reason]|].
  split; [rewrite Hst; by destruct fetched as [[row|err]|reason]|].
  unfold AuthContext.signOut. by rewrite Hmode.
Qed.

Lemma failed_fetch_signOut_skips_primary_witness :
  let w := frozen empty_storage 5 in
  let fetched : AuthContext.Awaited AuthContext.PostgrestSingleResponse :=
    AuthContext.Rejected "TypeError: Failed to fetch" in
  let started :=
    AuthContext.initializeAuth (AuthContext.Resolved (Some bare_session))
      fetched AuthContext.initial w in
  fst (MockAuth.getSession (snd (createDemoUsers w))) = None ∧
  fetch_failed fetched ∧
  AuthContext.isMockMode (fst started) = true ∧
  AuthContext.user (fst started) =
    Some (AuthContext.OfSupabase (Supabase.user bare_session)) ∧
  AuthContext.session (fst started) =
    Some (AuthContext.SupabaseSession bare_session) ∧
  fst (fst (AuthContext.signOut (fst started) (snd started))) = [] ∧
  AuthContext.user (snd (fst (AuthContext.signOut (fst started)
                                (snd started)))) = None.
Proof.
  intros w fetched started.
  assert (Hmock : fst (MockAuth.getSession (snd (createDemoUsers w))) = None)
    by reflexivity.
  split; [exact Hmock|]. split; [exact I|].
  exact (failed_fetch_signOut_skips_primary bare_session fetched
           AuthContext.initial w Hmock I).
Defined.

(** X18. The session-change callback never touches [loading] or
    [isMockMode]. When the effect that installed it saw mock mode on, it
    changes nothing at all, whatever the notification; when it saw mock
    mode off and the notification carries no session, it leaves no
    user, no session and no profile. *)
Theorem onAuthStateChange_respects_mock_mode mockMode session0 fetched s :
  AuthContext.loading
    (AuthContext.onAuthStateChange mockMode session0 fetched s) =
    AuthContext.loading s ∧
  AuthContext.isMockMode
    (AuthContext.onAuthStateChange mockMode session0 fetched s) =
    AuthContext.isMockMode s ∧
  AuthContext.onAuthStateChange true session0 fetched s = s ∧
  AuthContext.onAuthStateChange false None fetched s =
    {| AuthContext.user := None; AuthContext.session := None;
       AuthContext.profile := None;
       AuthContext.loading := AuthContext.loading s;
       AuthContext.isMockMode := AuthContext.isMockMode s |}.
Proof.
  split; [|split; [|split; reflexivity]].
  - destruct mockMode; [done|].
    by destruct session0 as [sess|], fetched as [[row|err]|reason].
  - destruct mockMode; [done|].
    by destruct session0 as [sess|], fetched as [[row|err]|reason].
Qed.

End Reload.

(** ** The sidebar *)

Section Sidebar.

Import AppSidebar.

Implicit Types (profile : option AuthContext.Profile).

Lemma getNavigationItems_cases profile :
  (AuthContext.role <$> profile = Some "admin" ∧
   getNavigationItems profile = adminItems) ∨
  (AuthContext.role <$> profile = Some "manager" ∧
   getNavigationItems profile = (employeeItems ++ managerItems)%list) ∨
  (AuthContext.role <$> profile ≠ Some "admin" ∧
   AuthContext.role <$> profile ≠ Some "manager" ∧
   getNavigationItems profile = employeeItems).
Proof.
  unfold getNavigationItems. destruct profile as [p|]; cbn.
  - destruct (String.eqb_spec (AuthContext.role p) "admin") as [->|Hna].
    + by left.
    + destruct (String.eqb_spec (AuthContext.role p) "manager") as [->|Hnm].
      * right. by left.
      * right. right. repeat split; congruence.
  - right. right. by repeat split.
Qed.

(** X19. The sidebar offers an item whose URL lies under [/admin]
    exactly to a profile whose role is [admin]. A profile whose role is
    neither [admin] nor [manager], an unrecognized role included, and an
    absent profile get the employee items; and every menu begins with
    the dashboard. *)
Theorem sidebar_admin_items_only_for_admin profile :
  ((∃ item, item ∈ getNavigationItems profile ∧
            String.prefix "/admin" (url item) = true) ↔
     AuthContext.role <$> profile = Some "admin") ∧
  (AuthContext.role <$> profile ≠ Some "admin" →
   AuthContext.role <$> profile ≠ Some "manager" →
   getNavigationItems profile = employeeItems) ∧
  url <$> head (getNavigationItems profile) = Some "/dashboard".
Proof.
  destruct (getNavigationItems_cases profile)
    as [[Hr ->] | [[Hr ->] | (Hna & Hnm & ->)]].
  - split; [|split; [done | done]]. split; [done|]. intros _.
    eexists. split; [right; left | done].
  - split; [|split; [done | done]]. split; [|by rewrite Hr].
    intros (item & Hin & Hp). exfalso.
    unfold employeeItems, managerItems in Hin. cbn [app] in Hin.
    repeat (apply elem_of_cons in Hin as [->|Hin]; [discriminate Hp|]).
    by apply not_elem_of_nil in Hin.
  - split; [|split; [done | done]]. split; [|done].
    intros (item & Hin & Hp). exfalso. unfold employeeItems in Hin.
    repeat (apply elem_of_cons in Hin as [->|Hin]; [discriminate Hp|]).
    by apply not_elem_of_nil in Hin.
Qed.

(** X20. The titles of the items, which the component uses as the keys
    of the rendered list, are pairwise distinct for every profile but a
    manager's: the manager's menu is the employee items followed by the
    manager items, and has the title [Dashboard] twice. *)
Theorem sidebar_titles_distinct_unless_manager profile :
  NoDup (title <$> getNavigationItems profile) ↔
  AuthContext.role <$> profile ≠ Some "manager".
Proof.
  destruct (getNavigationItems_cases profile)
    as [[Hr ->] | [[Hr ->] | (Hna & Hnm & ->)]].
  - split; [by rewrite Hr|]. intros _.
    apply (bool_decide_unpack _). by vm_compute.
  - split; [|by rewrite Hr]. intros Hnd. exfalso.
    apply (bool_decide_pack _) in Hnd. vm_compute in Hnd. exact Hnd.
  - split; [done|]. intros _.
    apply (bool_decide_unpack _). by vm_compute.
Qed.

End Sidebar.

(** ** The dashboard *)

Section DashboardStats.

Import Dashboard.

Implicit Types (l : list LeaveRequest) (p : AuthContext.Profile)
  (r : Responses).

Lemma counted_statuses_spec (st : string) :
  st ∈ counted_statuses ↔ st = "pending" ∨ st = "approved" ∨ st = "rejected".
Proof.
  unfold counted_statuses. rewrite !elem_of_cons.
  split; [|tauto]. intros [?|[?|[?|Hnil]]]; auto.
  by apply not_elem_of_nil in Hnil.
Qed.

Lemma count_status_sum l :
  (count_status "pending" l + count_status "approved" l
   + count_status "rejected" l
   + length (filter (λ req, req_status req ∉ counted_statuses) l)
   = length l)%nat.
Proof.
  unfold count_status.
  induction l as [|x l IH]; [done|].
  rewrite !filter_cons.
  pose proof (counted_statuses_spec (req_status x)) as Hc.
  destruct (decide (req_status x = "pending")) as [Hp|Hp];
  destruct (decide (req_status x = "approved")) as [Ha|Ha];
  destruct (decide (req_status x = "rejected")) as [Hr|Hr];
  destruct (decide (req_status x ∉ counted_statuses)) as [Ho|Ho];
  first [ congruence | cbn [length]; lia | exfalso; tauto ].
Qed.

Lemma other_statuses_none l :
  length (filter (λ req, req_status req ∉ counted_statuses) l) = 0%nat ↔
  ∀ req, req ∈ l → req_status req ∈ counted_statuses.
Proof.
  split.
  - intros Hlen req Hin.
    destruct (decide (req_status req ∈ counted_statuses)) as [|Hout]; [done|].
    assert (Hf : req ∈ filter (λ req, req_status req ∉ counted_statuses) l)
      by (by apply list_elem_of_filter).
    apply nil_length_inv in Hlen. rewrite Hlen in Hf.
    by apply not_elem_of_nil in Hf.
  - intros Hall.
    destruct (filter (λ req, req_status req ∉ counted_statuses) l)
      as [|x k] eqn:Hf; [done|].
    assert (Hx : x ∈ filter (λ req, req_status req ∉ counted_statuses) l)
      by (rewrite Hf; by left).
    apply list_elem_of_filter in Hx as [Hout Hin]. exfalso.
    apply Hout. by apply Hall.
Qed.

(** What a successful fetch shows a profile that is not an admin's:
    some list of requests, each listed and counted. *)
Lemma tryFetch_not_admin p r s s' :
  AuthContext.role p ≠ "admin" →
  tryFetch (Some p) r s = Some s' →
  ∃ l name,
    recentRequests s' = (λ req, toRecent (name req) req) <$> l ∧
    stats s' = {| totalRequests := length l;
                  pendingRequests := count_status "pending" l;
                  approvedRequests := count_status "approved" l;
                  rejectedRequests := count_status "rejected" l;
                  totalEmployees := None |}.
Proof.
  intros Hna. unfold tryFetch.
  destruct (String.eqb_spec (AuthContext.role p) "admin") as [|_]; [done|].
  destruct (AuthContext.role p =? "manager")%string.
  - destruct (manager_requests r) as [requests|]; [|done].
    destruct (team_members r) as [teamMembers|]; [|done].
    intros [= <-]. by eexists _, _.
  - destruct (employee_requests r) as [requests|]; [|done].
    intros [= <-]. exists (or_nil requests), (λ _, None).
    split; [done|]. by destruct requests.
Qed.

(** X21. When the fetch succeeds for a profile that is not an admin's,
    the total shown is the number of requests listed, the pending,
    approved and rejected counts add up to at most the total, and they
    add up to exactly the total when and only when every listed request
    has one of these three statuses; no employee count is shown, and
    loading is over. *)
Theorem dashboard_counts_match_list p r s s' :
  AuthContext.role p ≠ "admin" →
  tryFetch (Some p) r s = Some s' →
  let shown := fetchDashboardData (Some p) r s in
  totalRequests (stats shown) = length (recentRequests shown) ∧
  (pendingRequests (stats shown) + approvedRequests (stats shown)
   + rejectedRequests (stats shown) ≤ totalRequests (stats shown))%nat ∧
  ((pendingRequests (stats shown) + approvedRequests (stats shown)
    + rejectedRequests (stats shown) = totalRequests (stats shown))%nat ↔
   ∀ rr, rr ∈ recentRequests shown → status rr ∈ counted_statuses) ∧
  totalEmployees (stats shown) = None ∧
  loading shown = false.
Proof.
  intros Hna Hfetch shown. subst shown. unfold fetchDashboardData.
  rewrite Hfetch. unfold default, from_option, Datatypes.id, setLoading.
  cbn [stats recentRequests loading].
  destruct (tryFetch_not_admin p r s s' Hna Hfetch) as (l & name & -> & ->).
  cbn [totalRequests pendingRequests approvedRequests rejectedRequests
       totalEmployees].
  pose proof (count_status_sum l) as Hsum.
  pose proof (other_statuses_none l) as Hnone.
  split; [by rewrite length_fmap|]. split; [lia|].
  split; [|done]. split.
  - intros Heq rr Hrr.
    apply list_elem_of_fmap in Hrr as (req & -> & Hreq). cbn [status toRecent].
    apply Hnone; [lia | done].
  - intros Hall.
    assert (Hl : ∀ req, req ∈ l → req_status req ∈ counted_statuses).
    { intros req Hreq.
      apply (Hall (toRecent (name req) req)).
      by apply (list_elem_of_fmap_2 (λ req, toRecent (name req) req)). }
    apply Hnone in Hl. lia.
Qed.

Lemma dashboard_counts_match_list_witness :
  let p := profile_of "u1" "manager" in
  let r := manager_responses sample_requests sample_team in
  let shown := fetchDashboardData (Some p) r initial in
  AuthContext.role p ≠ "admin" ∧
  is_Some (tryFetch (Some p) r initial) ∧
  totalRequests (stats shown) = length (recentRequests shown) ∧
  (pendingRequests (stats shown) + approvedRequests (stats shown)
   + rejectedRequests (stats shown) ≤ totalRequests (stats shown))%nat ∧
  ((pendingRequests (stats shown) + approvedRequests (stats shown)
    + rejectedRequests (stats shown) = totalRequests (stats shown))%nat ↔
   ∀ rr, rr ∈ recentRequests shown → status rr ∈ counted_statuses) ∧
  totalEmployees (stats shown) = None ∧
  loading shown = false.
Proof.
  intros p r shown.
  assert (Hna : AuthContext.role p ≠ "admin") by discriminate.
  split; [exact Hna|]. split; [by eexists|].
  exact (dashboard_counts_match_list p r initial _ Hna eq_refl).
Defined.

Lemma find_member_spec (team : list TeamMember) (req : LeaveRequest) :
  match find (λ m, String.eqb (member_id m) (req_employee_id req)) team with
  | Some m => m ∈ team ∧ member_id m = req_employee_id req
  | None => req_employee_id req ∉ member_id <$> team
  end.
Proof.
  induction team as [|m team' IH]; cbn.
  - intros Hin. by apply not_elem_of_nil in Hin.
  - destruct (String.eqb_spec (member_id m) (req_employee_id req))
      as [Heq|Hne].
    + split; [by left | done].
    + destruct (find _ team') as [m'|].
      * destruct IH as [Hin Hid]. split; [by right | done].
      * intros Hin. apply elem_of_cons in Hin as [Hin|Hin]; [congruence|].
        by apply IH.
Qed.

(** X22. For a manager, when both queries succeed, a request is listed
    exactly when it was fetched and its employee is one of the fetched
    team members or the manager; the list keeps the order of the fetch.
    A listed request carries the name of the team member it belongs
    to, and the name [Unknown] when its employee is not among the team
    members, as for the manager's own requests. *)
Theorem dashboard_manager_lists_team_requests p r s requests team :
  AuthContext.role p = "manager" →
  manager_requests r = AuthContext.Resolved (Some requests) →
  team_members r = AuthContext.Resolved (Some team) →
  let shown := fetchDashboardData (Some p) r s in
  let mine req :=
    req_employee_id req ∈ member_id <$> team
    ∨ req_employee_id req = AuthContext.id p in
  recentRequests shown =
    (λ req, toRecent (Some (memberName (Some team) req)) req)
      <$> filter mine requests ∧
  (∀ req, req ∈ filter mine requests ↔ req ∈ requests ∧ mine req) ∧
  (∀ req, req_employee_id req ∉ member_id <$> team →
          memberName (Some team) req = "Unknown") ∧
  (∀ req, req_employee_id req ∈ member_id <$> team →
          ∃ m, m ∈ team ∧ member_id m = req_employee_id req ∧
               memberName (Some team) req =
                 full_name (member_first_name m) (member_last_name m)).
Proof.
  intros Hrole Hreq Hteam shown mine. subst shown.
  unfold fetchDashboardData, tryFetch. rewrite Hrole, Hreq, Hteam.
  cbn [String.eqb Ascii.eqb Bool.eqb default setLoading recentRequests
       setRecentRequests].
  split; [reflexivity|]. split.
  { intros req. rewrite list_elem_of_filter. tauto. }
  pose proof (find_member_spec team) as Hfind.
  split.
  - intros req Hout. unfold memberName. cbn [mbind option_bind].
    specialize (Hfind req).
    destruct (find _ team) as [m|]; [|done].
    destruct Hfind as [Hin Hid]. exfalso. apply Hout. rewrite <- Hid.
    by apply list_elem_of_fmap_2.
  - intros req Hin. unfold memberName. cbn [mbind option_bind].
    specialize (Hfind req).
    destruct (find _ team) as [m|]; [|done].
    destruct Hfind as [Hm Hid]. by exists m.
Qed.

Lemma dashboard_manager_lists_team_requests_witness :
  let p := profile_of "u1" "manager" in
  let r := manager_responses sample_requests sample_team in
  let shown := fetchDashboardData (Some p) r initial in
  AuthContext.role p = "manager" ∧
  employee_name <$> recentRequests shown =
    [Some "Eve Stone"; Some "Unknown"].
Proof.
  intros p r shown.
  assert (Hrole : AuthContext.role p = "manager") by reflexivity.
  split; [exact Hrole|].
  pose proof (dashboard_manager_lists_team_requests p r initial
                sample_requests sample_team Hrole eq_refl eq_refl)
    as [Hshown _].
  cbv zeta in Hshown. subst shown. rewrite Hshown. by vm_compute.
Defined.

End DashboardStats.
